(** * Lightwood: numeric time-series encoder, BestOf ensemble, delta inference

    A shallow embedding of three pieces of the lightwood sources

      - [lightwood/encoders/numeric/ts_numeric.py]  ([TsNumericEncoder])
      - [lightwood/ensemble/best_of.py]             ([BestOf])
      - [lightwood/data/timeseries_analyzer.py]     ([get_delta],
                                                     [get_ts_residuals])

    and the properties their specification states about them.

    Conventions of the embedding.

    - A Python/NumPy float is a [pyfloat]: an exact rational, or one of the
      three IEEE specials.  Arithmetic on finite values is exact (no
      rounding); the specials follow IEEE-754 as NumPy applies it.  Zero is
      unsigned and behaves as [+0.0].
    - Exceptions and logging are explicit: a computation of type [M A]
      yields the log records it emitted and either a value or the raised
      exception.
    - Library functions the sources call but do not define ([math.log],
      [math.exp], [float] on strings) are section variables.
    - [torch.Tensor(ret)] is the list of vectors itself: its narrowing to
      single precision is a rounding, and there is none here.
    - A data frame kept by [BestOf.store_context] and [get_context] is its
      column names and its rows, each row a finite map from column name to
      cell; [get_ts_residuals] is stated over finite target values. *)

From Stdlib Require Import ZArith QArith Qcanon Qcabs Qround Lia Ascii String.
From stdpp Require Import base option list numbers strings gmap sorting.

Local Open Scope Z_scope.

(** ** Floats *)

Inductive pyfloat : Type :=
  | Fin (q : Qc)
  | PInf
  | NInf
  | NaN.

Definition qz (z : Z) : Qc := Q2Qc (inject_Z z).
Definition qfrac (a : Z) (b : positive) : Qc := Q2Qc (a # b).

Definition Qc_ltb (x y : Qc) : bool := negb (Qle_bool y x).
Definition Qc_eqb (x y : Qc) : bool := Qeq_bool x y.

Definition fzero : pyfloat := Fin (qz 0).
Definition fone : pyfloat := Fin (qz 1).

(** [np.isnan] *)
Definition is_nan (x : pyfloat) : bool :=
  match x with NaN => true | _ => false end.

(** [x == float('inf')] *)
Definition is_pinf (x : pyfloat) : bool :=
  match x with PInf => true | _ => false end.

(** [a < b]; every comparison with NaN is false. *)
Definition flt (a b : pyfloat) : bool :=
  match a, b with
  | NaN, _ | _, NaN => false
  | Fin x, Fin y => Qc_ltb x y
  | NInf, NInf => false
  | NInf, _ => true
  | _, NInf => false
  | PInf, _ => false
  | Fin _, PInf => true
  end.

(** [a > b] *)
Definition fgt (a b : pyfloat) : bool := flt b a.

(** [abs(a)] *)
Definition fabs (a : pyfloat) : pyfloat :=
  match a with
  | Fin x => Fin (Qcabs x)
  | PInf | NInf => PInf
  | NaN => NaN
  end.

(** [a + b] *)
Definition fadd (a b : pyfloat) : pyfloat :=
  match a, b with
  | NaN, _ | _, NaN => NaN
  | Fin x, Fin y => Fin (x + y)%Qc
  | PInf, NInf | NInf, PInf => NaN
  | PInf, _ | _, PInf => PInf
  | NInf, _ | _, NInf => NInf
  end.

(** Sign of a float seen as a factor: [Some true] for negative,
    [Some false] for positive, [None] for zero. *)
Definition fsign (a : Qc) : option bool :=
  if Qc_eqb a (qz 0) then None
  else Some (Qc_ltb a (qz 0)).

Definition inf_of_sign (neg : bool) : pyfloat := if neg then NInf else PInf.

(** [a * b] *)
Definition fmul (a b : pyfloat) : pyfloat :=
  match a, b with
  | NaN, _ | _, NaN => NaN
  | Fin x, Fin y => Fin (x * y)%Qc
  | Fin x, PInf | PInf, Fin x =>
      match fsign x with None => NaN | Some s => inf_of_sign s end
  | Fin x, NInf | NInf, Fin x =>
      match fsign x with None => NaN | Some s => inf_of_sign (negb s) end
  | PInf, PInf | NInf, NInf => PInf
  | PInf, NInf | NInf, PInf => NInf
  end.

(** [a / b] with NumPy's float64 semantics: a zero divisor gives an
    infinity or NaN (and a warning), never [ZeroDivisionError]. *)
Definition fdiv (a b : pyfloat) : pyfloat :=
  match a, b with
  | NaN, _ | _, NaN => NaN
  | Fin x, Fin y =>
      if Qc_eqb y (qz 0)
      then match fsign x with None => NaN | Some s => inf_of_sign s end
      else Fin (x / y)%Qc
  | Fin _, (PInf | NInf) => fzero
  | PInf, Fin y => inf_of_sign (Qc_ltb y (qz 0))
  | NInf, Fin y => inf_of_sign (negb (Qc_ltb y (qz 0)))
  | (PInf | NInf), (PInf | NInf) => NaN
  end.

(** [np.mean(l)]: the sum divided by the length; NaN on the empty list. *)
Definition np_sum (l : list pyfloat) : pyfloat := foldl fadd fzero l.
Definition np_mean (l : list pyfloat) : pyfloat :=
  fdiv (np_sum l) (Fin (qz (Z.of_nat (length l)))).

(** ** Exceptions, logging and the computation monad *)

Inductive exn : Type :=
  | Exception (msg : string)
  | KeyError
  | TypeError
  | ValueError
  | IndexError
  | OverflowError.

Inductive log_level : Type := DEBUG | INFO | WARNING | ERROR.

Inductive result (A : Type) : Type :=
  | Ok (a : A)
  | Raise (e : exn).
Arguments Ok {A} a.
Arguments Raise {A} e.

Definition M (A : Type) : Type := (list log_level * result A)%type.

Definition ret {A} (a : A) : M A := ([], Ok a).
Definition raise {A} (e : exn) : M A := ([], Raise e).
Definition log (lvl : log_level) : M unit := ([lvl], Ok tt).
Definition bind {A B} (m : M A) (f : A -> M B) : M B :=
  match m with
  | (l, Ok a) => let '(l', r) := f a in (l ++ l', r)
  | (l, Raise e) => (l, Raise e)
  end.

Notation "x <- m ;; k" := (bind m (fun x => k))
  (at level 100, m at next level, right associativity).
Notation "m ;;; k" := (bind m (fun _ => k))
  (at level 100, right associativity).

(** [[body x for x in l]], collecting the results. *)
Fixpoint map_M {A B} (body : A -> M B) (l : list A) : M (list B) :=
  match l with
  | [] => ret []
  | x :: l' => y <- body x ;; ys <- map_M body l' ;; ret (y :: ys)
  end.

(** ** Values handed to the encoder *)

(** A datum of a column: [None], a number, or a string. *)
Inductive pyval : Type :=
  | PyNone
  | PyNum (x : pyfloat)
  | PyStr (s : string).

(** An entry of a [group_info] column: a group value, or the empty [set()]
    object the encoder itself puts in its default group column. *)
Inductive gval : Type :=
  | GStr (s : string)
  | GEmptySet.

(** [group_info] is a dict from grouping column to that column's values;
    its insertion order is the order of [.values()]. *)
Definition group_info_t : Type := list (string * list gval).

(** Keys of [normalizers]: the string ['__default'] or a frozenset of
    group values. *)
Inductive nkey : Type :=
  | KDefault
  | KGroup (g : gset string).

#[global] Instance nkey_eq_dec : EqDecision nkey.
Proof. solve_decision. Defined.

#[global] Instance nkey_countable : Countable nkey.
Proof.
  refine (inj_countable'
            (fun k => match k with KDefault => None | KGroup g => Some g end)
            (fun o => match o with None => KDefault | Some g => KGroup g end) _).
  intros []; reflexivity.
Defined.

Record Normalizer : Type := { abs_mean : pyfloat }.

Record TsNumericEncoder : Type := {
  is_target : bool;
  _type : option string;
  _abs_mean : option pyfloat;
  positive_domain : bool;
  decode_log : bool;
  normalize_by_group : bool;
  normalizers : option (gmap nkey Normalizer);
  _prepared : bool
}.

(** [TsNumericEncoder.__init__] *)
Definition new_encoder (data_type : option string) (target : bool)
  : TsNumericEncoder :=
  {| is_target := target; _type := data_type; _abs_mean := None;
     positive_domain := false; decode_log := false;
     normalize_by_group := false; normalizers := None;
     _prepared := false |}.

(** The assignment [encoder.normalizers = nz] made by the code that owns
    the encoder. *)
Definition with_normalizers (self : TsNumericEncoder)
    (nz : option (gmap nkey Normalizer)) : TsNumericEncoder :=
  {| is_target := is_target self; _type := _type self;
     _abs_mean := _abs_mean self; positive_domain := positive_domain self;
     decode_log := decode_log self;
     normalize_by_group := normalize_by_group self;
     normalizers := nz; _prepared := _prepared self |}.

(** A decoded value: [None], a float, or a Python [int]. *)
Inductive decoded : Type :=
  | DNone
  | DFloat (x : pyfloat)
  | DInt (z : Z).


(** [s.replace(',', '.')] *)
Fixpoint replace_comma (s : string) : string :=
  match s with
  | EmptyString => EmptyString
  | String c s' =>
      String (if Ascii.eqb c ","%char then "."%char else c) (replace_comma s')
  end.

(** [int(q)] on a finite float: truncation toward zero. *)
Definition int_of_Qc (q : Qc) : Z := Z.quot (Qnum q) (Zpos (Qden q)).

(** [int(x)] on a float. *)
Definition py_int (x : pyfloat) : result Z :=
  match x with
  | Fin q => Ok (int_of_Qc q)
  | PInf | NInf => Raise OverflowError
  | NaN => Raise ValueError
  end.

(** [round(q)] on a finite float: nearest integer, halves to even. *)
Definition round_half_even (q : Qc) : Z :=
  let f := Qfloor q in
  let r := (q - qz f)%Qc in
  if Qc_ltb r (qfrac 1 2) then f
  else if Qc_ltb (qfrac 1 2) r then f + 1
  else if Z.even f then f else f + 1.

(** [round(x)] on a float. *)
Definition py_round (x : pyfloat) : result Z :=
  match x with
  | Fin q => Ok (round_half_even q)
  | PInf | NInf => Raise OverflowError
  | NaN => Raise ValueError
  end.

(** [zip] over the unpacked columns: the rows of a list of columns, as long as the shortest
    column; no rows at all when there is no column. *)
Fixpoint zip_star {A} (cols : list (list A)) : list (list A) :=
  match cols with
  | [] => []
  | c :: cs =>
      match cs with
      | [] => map (fun x => [x]) c
      | _ :: _ => zip_with cons c (zip_star cs)
      end
  end.

(** [frozenset(group)]; a [set()] element is unhashable. *)
Fixpoint frozenset (group : list gval) : result (gset string) :=
  match group with
  | [] => Ok ∅
  | GStr s :: rest =>
      match frozenset rest with
      | Ok g => Ok ({[ s ]} ∪ g)
      | Raise e => Raise e
      end
  | GEmptySet :: _ => Raise TypeError
  end.

Definition lift {A} (r : result A) : M A := ([], r).

(** ['__default': [set()] * n] *)
Definition default_group_info (n : nat) : group_info_t :=
  [("__default"%string, replicate n GEmptySet)].

(** The [10^63] the decoder substitutes. *)
Definition sentinel_10_63 : Z := 10 ^ 63.

Definition vec3 (a b c : pyfloat) : list pyfloat := [a; b; c].
Definition vec4 (a b c d : pyfloat) : list pyfloat := [a; b; c; d].
Definition zeros3 : list pyfloat := vec3 fzero fzero fzero.
Definition zeros4 : list pyfloat := vec4 fzero fzero fzero fzero.

Section TsNumeric.

(** [float(s)] on a string: [None] when it raises [ValueError]. *)
Variable str_to_float : string -> option pyfloat.
(** [math.log] on a float that is [> 0]. *)
Variable math_log : pyfloat -> pyfloat.
(** [math.exp]: [None] when it raises [OverflowError]. *)
Variable math_exp : pyfloat -> option pyfloat.

(** [float(v)]: [None] when it raises. *)
Definition py_float (v : pyval) : option pyfloat :=
  match v with
  | PyNone => None
  | PyNum x => Some x
  | PyStr s => str_to_float s
  end.

(** The type-inference loop of [prepare]. *)
Fixpoint infer_value_type (priming_data : list pyval) (value_type : string)
  : M string :=
  match priming_data with
  | [] => ret value_type
  | number :: rest =>
      match py_float number with
      | None => infer_value_type rest value_type
      | Some NaN =>
          log ERROR ;;;
          raise (Exception "Lightwood does not support working with NaN values !")
      | Some (PInf | NInf) => raise OverflowError
      | Some (Fin q) =>
          infer_value_type rest
            (if Qc_eqb (qz (int_of_Qc q)) q then value_type else "float"%string)
      end
  end.

(** [float(str(x).replace(',', '.'))] for [x] that is not [None]. *)
Definition float_of_str_of (x : pyval) : M pyfloat :=
  match x with
  | PyNone => raise ValueError
  | PyNum f => ret f
  | PyStr s =>
      match str_to_float (replace_comma s) with
      | Some f => ret f
      | None => raise ValueError
      end
  end.

Definition is_none (x : pyval) : bool :=
  match x with PyNone => true | _ => false end.

(** [TsNumericEncoder.prepare] *)
Definition prepare (self : TsNumericEncoder) (priming_data : list pyval)
  : M TsNumericEncoder :=
  if _prepared self
  then raise (Exception "You can only call prepare once for a given encoder.")
  else
    value_type <- infer_value_type priming_data "int"%string ;;
    non_null_priming_data <-
      map_M float_of_str_of (filter (fun x => is_none x = false) priming_data) ;;
    ret {| is_target := is_target self;
           _type := match _type self with
                    | None => Some value_type
                    | Some t => Some t
                    end;
           _abs_mean := Some (np_mean (map fabs non_null_priming_data));
           positive_domain := positive_domain self;
           decode_log := decode_log self;
           normalize_by_group := normalize_by_group self;
           normalizers := normalizers self;
           _prepared := true |}.

(** The coercion that opens the body of the [encode] loop: [float(real)],
    then [float(real.replace(',', '.'))], then [None]. *)
Definition coerce (real : pyval) : option pyfloat :=
  match py_float real with
  | Some x => Some x
  | None =>
      match real with
      | PyStr s => str_to_float (replace_comma s)
      | PyNone | PyNum _ => None
      end
  end.

(** [not group] on a tuple. *)
Definition tuple_is_empty (group : list gval) : bool :=
  match group with [] => true | _ :: _ => false end.

(** [self.normalizers[k]] *)
Definition lookup_normalizer (self : TsNumericEncoder) (k : nkey)
  : result Normalizer :=
  match normalizers self with
  | None => Raise TypeError
  | Some nz =>
      match nz !! k with
      | Some n => Ok n
      | None => Raise KeyError
      end
  end.

(** The [if not group: ... else: mean = self._abs_mean] block shared by
    [encode] and [decode]. *)
Definition resolve_mean (self : TsNumericEncoder) (group : list gval)
  : M (option pyfloat) :=
  if tuple_is_empty group
  then
    match frozenset group with
    | Raise e => raise e
    | Ok key =>
        match lookup_normalizer self (KGroup key) with
        | Ok n => ret (Some (abs_mean n))
        | Raise KeyError =>
            n <- lift (lookup_normalizer self KDefault) ;;
            ret (Some (abs_mean n))
        | Raise e => raise e
        end
    end
  else ret (_abs_mean self).

(** [math.log(abs(real)) if abs(real) > 0 else -20] *)
Definition log_magnitude (real : pyfloat) : pyfloat :=
  if fgt (fabs real) fzero then math_log (fabs real) else Fin (qz (-20)).

(** [1 if real < 0 and not self.positive_domain else 0] *)
Definition sign_flag (self : TsNumericEncoder) (real : pyfloat) : pyfloat :=
  if flt real fzero && negb (positive_domain self) then fone else fzero.

(** The [if self.is_target:] branch of the [encode] loop. *)
Definition encode_target_row (self : TsNumericEncoder)
    (real : option pyfloat) (group : list gval) : M (list pyfloat) :=
  mean <- resolve_mean self group ;;
  match real with
  | None => log DEBUG ;;; ret zeros3
  | Some r =>
      match mean with
      | None => raise TypeError
      | Some m =>
          if fgt m fzero
          then ret (vec3 (sign_flag self r) (log_magnitude r) (fdiv r m))
          else log DEBUG ;;; ret zeros3
      end
  end.

(** The [else:] branch of the [encode] loop; its [except Exception]
    catches the [TypeError] of dividing by an unset mean. *)
Definition encode_input_row (self : TsNumericEncoder)
    (real : option pyfloat) : M (list pyfloat) :=
  match real with
  | None => ret zeros4
  | Some r =>
      match _abs_mean self with
      | None => log ERROR ;;; ret zeros4
      | Some m =>
          ret (vec4 fone (log_magnitude r) (sign_flag self r) (fdiv r m))
      end
  end.

Definition encode_row (self : TsNumericEncoder)
    (row : pyval * list gval) : M (list pyfloat) :=
  let real := coerce (fst row) in
  if is_target self
  then encode_target_row self real (snd row)
  else encode_input_row self real.

(** The group columns a call works with: the default column when the
    caller gave none, or an empty dict. *)
Definition effective_group_info (given : option group_info_t) (n : nat)
  : group_info_t :=
  match given with
  | None | Some [] => default_group_info n
  | Some (c :: cs) => c :: cs
  end.

(** [zip(data, list(zip( *group_info.values())))]: every value with the
    tuple of its row of the group columns. *)
Definition paired_rows {A} (values : list A) (given : option group_info_t)
  : list (A * list gval) :=
  zip values
      (zip_star (map snd (effective_group_info given (length values)))).

Definition not_prepared_error : exn :=
  Exception "You need to call prepare before calling encode or decode.".

(** [TsNumericEncoder.encode]; [extra_data] is
    [extra_data[0]['group_info']], or [None] when [extra_data] is. *)
Definition encode (self : TsNumericEncoder) (data : list pyval)
    (extra_data : option group_info_t) : M (list (list pyfloat)) :=
  if negb (_prepared self) then raise not_prepared_error
  else
    map_M (encode_row self) (paired_rows data extra_data).

(** [vector[i]] *)
Definition item (vector : list pyfloat) (i : nat) : M pyfloat :=
  match vector !! i with
  | Some x => ret x
  | None => raise IndexError
  end.

(** [np.isnan(x) or x == float('inf')] *)
Definition nan_or_inf (x : pyfloat) : bool := is_nan x || is_pinf x.

Definition py_abs (v : decoded) : decoded :=
  match v with
  | DNone => DNone
  | DFloat x => DFloat (fabs x)
  | DInt z => DInt (Z.abs z)
  end.

(** [int(real_value)] *)
Definition int_of_decoded (v : decoded) : M decoded :=
  match v with
  | DNone => raise TypeError
  | DFloat x => z <- lift (py_int x) ;; ret (DInt z)
  | DInt z => ret (DInt z)
  end.

Definition type_is_int (self : TsNumericEncoder) : bool :=
  match _type self with
  | Some t => String.eqb t "int"
  | None => false
  end.

(** The reconstruction below the NaN/inf test of the target branch. *)
Definition reconstruct_target (self : TsNumericEncoder) (use_log : bool)
    (v0 v1 v2 : pyfloat) (group : list gval) : M decoded :=
  real_value <-
    (if use_log
     then
       let sign := if fgt v0 (Fin (qfrac 1 2)) then (-1) else 1 in
       match math_exp v1 with
       | Some e => ret (DFloat (fmul e (Fin (qz sign))))
       | None => ret (DInt (sentinel_10_63 * sign))
       end
     else
       mean <- resolve_mean self group ;;
       match mean with
       | None => raise TypeError
       | Some m => ret (DFloat (fmul v2 m))
       end) ;;
  let real_value :=
    if positive_domain self then py_abs real_value else real_value in
  if type_is_int self then int_of_decoded real_value else ret real_value.

(** The [if self.is_target:] branch of the [decode] loop. *)
Definition decode_target_row (self : TsNumericEncoder) (use_log : bool)
    (vector : list pyfloat) (group : list gval) : M decoded :=
  v0 <- item vector 0 ;;
  if nan_or_inf v0 then log ERROR ;;; ret (DInt sentinel_10_63)
  else
    v1 <- item vector 1 ;;
    if nan_or_inf v1 then log ERROR ;;; ret (DInt sentinel_10_63)
    else
      v2 <- item vector 2 ;;
      if nan_or_inf v2 then log ERROR ;;; ret (DInt sentinel_10_63)
      else reconstruct_target self use_log v0 v1 v2 group.

(** The [else:] branch of the [decode] loop. *)
Definition decode_input_row (self : TsNumericEncoder)
    (vector : list pyfloat) : M decoded :=
  v0 <- item vector 0 ;;
  if flt v0 (Fin (qfrac 1 2)) then ret DNone
  else
    v3 <- item vector 3 ;;
    match _abs_mean self with
    | None => raise TypeError
    | Some m =>
        let real_value := fmul v3 m in
        if type_is_int self
        then z <- lift (py_round real_value) ;; ret (DInt z)
        else ret (DFloat real_value)
    end.

Definition decode_row (self : TsNumericEncoder) (use_log : bool)
    (row : list pyfloat * list gval) : M decoded :=
  if is_target self
  then decode_target_row self use_log (fst row) (snd row)
  else decode_input_row self (fst row).

(** [TsNumericEncoder.decode] *)
Definition decode (self : TsNumericEncoder)
    (encoded_values : list (list pyfloat))
    (decode_log_arg : option bool) (group_info : option group_info_t)
  : M (list decoded) :=
  if negb (_prepared self) then raise not_prepared_error
  else
    let use_log :=
      match decode_log_arg with
      | None => decode_log self
      | Some b => b
      end in
    map_M (decode_row self use_log) (paired_rows encoded_values group_info).

End TsNumeric.

(** Instances of the library functions for the closed examples: the
    example data holds no strings, and the instances are exact at the only
    arguments the examples can reach ([log 1 = 0], [exp 0 = 1], and the
    IEEE limits). *)
Definition example_float : string -> option pyfloat := fun _ => None.

Definition example_log (x : pyfloat) : pyfloat :=
  match x with
  | Fin q => if Qc_eqb q (qz 1) then fzero else NaN
  | PInf => PInf
  | NInf | NaN => NaN
  end.

Definition example_exp (x : pyfloat) : option pyfloat :=
  match x with
  | Fin q => if Qc_eqb q (qz 0) then Some fone else Some NaN
  | PInf => Some PInf
  | NInf => Some fzero
  | NaN => Some NaN
  end.

(** The encoder [prepare] leaves behind: type and mean set, the rest as
    [__init__] left it. *)
Definition prepared_encoder (target : bool) (type : string) (mean : pyfloat)
  : TsNumericEncoder :=
  {| is_target := target; _type := Some type; _abs_mean := Some mean;
     positive_domain := false; decode_log := false;
     normalize_by_group := false; normalizers := None;
     _prepared := true |}.

(** Normalizers with mean [3] for the group [{'a'}] and mean [6] for
    ['__default']. *)
Definition example_normalizers : gmap nkey Normalizer :=
  {[ KGroup {[ "a"%string ]} := {| abs_mean := Fin (qz 3) |};
     KDefault := {| abs_mean := Fin (qz 6) |} ]}.

(** A prepared target encoder with unconditional mean [2] that was given
    [example_normalizers]. *)
Definition grouped_target : TsNumericEncoder :=
  with_normalizers (prepared_encoder true "int" (Fin (qz 2)))
                   (Some example_normalizers).


(** ** Decidable equality, for closed examples *)

#[global] Instance pyfloat_eq_dec : EqDecision pyfloat.
Proof. solve_decision. Defined.

#[global] Instance exn_eq_dec : EqDecision exn.
Proof. solve_decision. Defined.

#[global] Instance log_level_eq_dec : EqDecision log_level.
Proof. solve_decision. Defined.

#[global] Instance result_eq_dec {A} `{EqDecision A} : EqDecision (result A).
Proof. solve_decision. Defined.

#[global] Instance decoded_eq_dec : EqDecision decoded.
Proof. solve_decision. Defined.

(** Equality of values that differ only in how a rational was reduced. *)
Ltac structural_eq :=
  lazymatch goal with
  | |- @eq Qc _ _ => apply Qc_is_canon; reflexivity
  | |- _ => first [reflexivity | f_equal; structural_eq]
  end.

(** ** The BestOf ensemble *)

(** [-pow(2, 63)] *)
Definition score_sentinel : pyfloat := Fin (qz (- 2 ^ 63)).

(** Modelled from the spec: [lightwood.helpers.numeric.is_nan_numeric] is
    not among the sources; the specification says the replaced score is a
    non-finite one (NaN/undefined). *)
Definition is_nan_numeric (v : pyfloat) : bool :=
  match v with
  | Fin _ => false
  | PInf | NInf | NaN => true
  end.

(** The order [numpy] sorts floats by: NaN after everything else. *)
Definition np_le (a b : pyfloat) : bool :=
  match a, b with
  | _, NaN => true
  | NaN, _ => false
  | _, _ => negb (flt b a)
  end.

(** Insertion of index [i] in front of the first index whose key is not
    smaller. *)
Fixpoint insert_index (key : nat -> pyfloat) (i : nat) (l : list nat)
  : list nat :=
  match l with
  | [] => [i]
  | j :: l' =>
      if np_le (key i) (key j) then i :: j :: l'
      else j :: insert_index key i l'
  end.

Definition score_at (scores : list pyfloat) (i : nat) : pyfloat :=
  default NaN (scores !! i).

(** Index [a] may stand before index [b] in ascending order of [key]. *)
Definition score_le (key : nat -> pyfloat) (a b : nat) : Prop :=
  np_le (key a) (key b) = true.

(** [np.array(scores).argsort()]: the indices in ascending order of score.
    NumPy leaves the order of equal scores open; here equal scores keep
    their index order. *)
Definition argsort (scores : list pyfloat) : list nat :=
  foldr (insert_index (score_at scores)) [] (seq 0 (length scores)).

(** [list(reversed(np.array(score_list).argsort()))] *)
Definition rank_scores (score_list : list pyfloat) : list nat :=
  reverse (argsort score_list).

Section Ensemble.

(** An encoded dataset and the frame a mixer predicts. *)
Variables Dataset Frame : Type.

(** [evaluate_accuracy(data.data_frame, frame['prediction'], target,
    accuracy_functions, ts_analysis).values()]: the scores of one mixer's
    predictions on the validation data. *)
Variable evaluate_accuracy : Frame -> list pyfloat.

Record Mixer : Type := {
  mixer_name : string;
  stable : bool;
  supports_proba : bool;
  predict : Dataset -> result Frame
}.

Record BestOf : Type := {
  mixers : list Mixer;
  indexes_by_accuracy : list nat;
  best_supports_proba : bool
}.

(** The averaged score of one mixer, before the NaN replacement. *)
Definition avg_score (frame : Frame) : pyfloat :=
  np_mean (evaluate_accuracy frame).

(** The scoring loop of [BestOf.__init__]. *)
Fixpoint score_mixers (ms : list Mixer) (data : Dataset) : M (list pyfloat) :=
  match ms with
  | [] => ret []
  | mixer :: rest =>
      frame <- lift (predict mixer data) ;;
      let avg := avg_score frame in
      log INFO ;;;
      avg <- (if is_nan_numeric avg
              then log WARNING ;;; ret score_sentinel
              else ret avg) ;;
      score_list <- score_mixers rest data ;;
      ret (avg :: score_list)
  end.

(** [BestOf.__init__], without the stored time-series context. *)
Definition BestOf_init (ms : list Mixer) (data : Dataset) : M BestOf :=
  score_list <- score_mixers ms data ;;
  let indexes := rank_scores score_list in
  match indexes with
  | [] => raise IndexError
  | best :: _ =>
      match ms !! best with
      | None => raise IndexError
      | Some m =>
          log INFO ;;;
          ret {| mixers := ms; indexes_by_accuracy := indexes;
                 best_supports_proba := supports_proba m |}
      end
  end.

(** What [BestOf.__call__] hands back. *)
Inductive call_value : Type :=
  | OneFrame (frame : Frame)
  | AllFrames (frames : gmap string Frame)
  | ReturnedNone.

(** The [for mixer in self.mixers] loop of the all-mixers mode. *)
Fixpoint run_all (ms : list Mixer) (ds : Dataset)
    (predictions : gmap string Frame) : M (gmap string Frame) :=
  match ms with
  | [] => ret predictions
  | mixer :: rest =>
      frame <- lift (predict mixer ds) ;;
      run_all rest ds (<[ ("__mdb_mixer_" +:+ mixer_name mixer) := frame ]> predictions)
  end.

(** The [for mixer_index in self.indexes_by_accuracy] loop. *)
Fixpoint try_in_order (ms : list Mixer) (indexes : list nat) (ds : Dataset)
  : M call_value :=
  match indexes with
  | [] => ret ReturnedNone
  | mixer_index :: rest =>
      match ms !! mixer_index with
      | None => raise IndexError
      | Some mixer =>
          match predict mixer ds with
          | Ok frame => ret (OneFrame frame)
          | Raise e =>
              if stable mixer then raise e
              else log WARNING ;;; try_in_order ms rest ds
          end
      end
  end.

(** [BestOf.__call__] *)
Definition BestOf_call (self : BestOf) (ds : Dataset) (all_mixers : bool)
  : M call_value :=
  if all_mixers
  then frames <- run_all (mixers self) ds ∅ ;; ret (AllFrames frames)
  else try_in_order (mixers self) (indexes_by_accuracy self) ds.

End Ensemble.

Arguments stable {Dataset Frame} _.
Arguments supports_proba {Dataset Frame} _.
Arguments predict {Dataset Frame} _ _.
Arguments mixer_name {Dataset Frame} _.
Arguments mixers {Dataset Frame} _.
Arguments indexes_by_accuracy {Dataset Frame} _.
Arguments best_supports_proba {Dataset Frame} _.
Arguments OneFrame {Frame} _.
Arguments AllFrames {Frame} _.
Arguments ReturnedNone {Frame}.
Arguments avg_score {Frame} _ _.
Arguments score_mixers {Dataset Frame} _ _ _.
Arguments BestOf_init {Dataset Frame} _ _ _.
Arguments run_all {Dataset Frame} _ _ _.
Arguments try_in_order {Dataset Frame} _ _ _.
Arguments BestOf_call {Dataset Frame} _ _ _.

(** The score a mixer is ranked by: its averaged score, or the sentinel
    when that is not a number. *)
Definition adjusted_score (avg : pyfloat) : pyfloat :=
  if is_nan_numeric avg then score_sentinel else avg.

(** Mixers for the closed examples: a dataset is a number ([0] is the
    validation data), a frame is the list of its accuracy scores. *)
Definition example_mixer (name : string) (is_stable : bool)
    (scores : list pyfloat) : Mixer nat (list pyfloat) :=
  {| mixer_name := name; stable := is_stable; supports_proba := false;
     predict := fun _ => Ok scores |}.

(** A mixer that predicts the validation data and raises on any other. *)
Definition failing_mixer (name : string) (is_stable : bool)
    (scores : list pyfloat) : Mixer nat (list pyfloat) :=
  {| mixer_name := name; stable := is_stable; supports_proba := false;
     predict := fun ds => match ds with
                          | O => Ok scores
                          | S _ => Raise (Exception "prediction failed")
                          end |}.

Definition example_accuracy (frame : list pyfloat) : list pyfloat := frame.

(** ** Delta inference of the time-series analyzer *)

(** A group combination: the string ['__default'] or a tuple of group
    values. *)
Inductive combination : Type :=
  | DefaultGroup
  | Group (values : list string).

#[global] Instance combination_eq_dec : EqDecision combination.
Proof. solve_decision. Defined.

#[global] Instance combination_countable : Countable combination.
Proof.
  refine (inj_countable'
            (fun c => match c with DefaultGroup => None | Group v => Some v end)
            (fun o => match o with None => DefaultGroup | Some v => Group v end) _).
  intros []; reflexivity.
Defined.

(** The ordering columns of the data frame: every cell is a sequence of
    time stamps (integers here), of which the last one counts. *)
Definition order_frame : Type := gmap string (list (list Z)).

(** [ts_info['group_info']]: grouping column to that column's values. *)
Definition ts_group_info : Type := list (string * list string).

(** [series.rolling(window=2).apply(lambda x: x.iloc[1] - x.iloc[0])]
    without its leading NaN, which [value_counts] drops. *)
Definition rolling_diff (series : list Z) : list Z :=
  zip_with Z.sub (tail series) series.

(** The distinct values of a list, in order of first occurrence. *)
Fixpoint distinct (l : list Z) : list Z :=
  match l with
  | [] => []
  | x :: l' => x :: filter (fun y => negb (Z.eqb y x)) (distinct l')
  end.

Definition occurrences (l : list Z) (v : Z) : nat :=
  length (filter (fun y => Z.eqb y v) l).

(** Insertion in front of the first entry whose count is not larger. *)
Fixpoint insert_by_count (x : Z * nat) (l : list (Z * nat)) : list (Z * nat) :=
  match l with
  | [] => [x]
  | y :: l' =>
      if (snd y <=? snd x)%nat then x :: y :: l'
      else y :: insert_by_count x l'
  end.

(** [s.value_counts(ascending=False)] of pandas: each distinct value with
    its number of occurrences, the most frequent first; values that occur
    equally often stay in order of first occurrence. *)
Definition value_counts (l : list Z) : list (Z * nat) :=
  foldr insert_by_count [] (map (fun v => (v, occurrences l v)) (distinct l)).


(** [rolling_diff.value_counts(ascending=False).keys()[0]] *)
Definition most_frequent (diffs : list Z) : M Z :=
  match value_counts diffs with
  | (delta, _) :: _ => ret delta
  | [] => raise IndexError
  end.

(** [pd.Series([x[-1] for x in df[col]])] *)
Definition last_of_each (df : order_frame) (col : string) : M (list Z) :=
  match df !! col with
  | None => raise KeyError
  | Some cells =>
      map_M (fun x : list Z =>
               match last x with
               | Some v => ret v
               | None => raise IndexError
               end) cells
  end.

(** Whether row [i] carries, in every grouping column, the value the
    combination has for that column. *)
Definition row_in_group (group_info : ts_group_info) (values : list string)
    (i : nat) : bool :=
  forallb (fun vc : string * (string * list string) =>
             bool_decide (snd (snd vc) !! i = Some (fst vc)))
          (zip values group_info).

(** Modelled from the spec: [get_group_matches] of
    [lightwood.encoder.time_series.helpers.common] is not among the
    sources; the specification restricts a group's delta to that group's
    rows, so the subset is the data at the rows that match the combination
    in every grouping column, in row order. *)
Definition get_group_matches (group_info : ts_group_info) (data : list Z)
    (values : list string) : list nat * list Z :=
  match zip values group_info with
  | [] => ([], [])
  | _ :: _ =>
      let idxs := filter (fun i => row_in_group group_info values i = true)
                         (seq 0 (length data)) in
      (idxs, omap (fun i => data !! i) idxs)
  end.

Definition delta_table : Type := gmap combination (gmap string Z).

(** [deltas[group][col] = delta] *)
Definition set_delta (deltas : delta_table) (group : combination)
    (col : string) (delta : Z) : M delta_table :=
  match deltas !! group with
  | Some inner => ret (<[ group := <[ col := delta ]> inner ]> deltas)
  | None => raise KeyError
  end.

(** The first loop of [get_delta]. *)
Fixpoint default_loop (df : order_frame) (order_cols : list string)
    (deltas : delta_table) : M delta_table :=
  match order_cols with
  | [] => ret deltas
  | col :: rest =>
      series <- last_of_each df col ;;
      delta <- most_frequent (rolling_diff series) ;;
      deltas <- set_delta deltas DefaultGroup col delta ;;
      default_loop df rest deltas
  end.

(** The [for col in order_cols] loop of one group. *)
Fixpoint group_cols_loop (df : order_frame) (group_info : ts_group_info)
    (values : list string) (order_cols : list string) (deltas : delta_table)
  : M delta_table :=
  match order_cols with
  | [] => ret deltas
  | col :: rest =>
      data <- last_of_each df col ;;
      let subset := snd (get_group_matches group_info data values) in
      if (1 <? length subset)%nat
      then
        delta <- most_frequent (rolling_diff subset) ;;
        deltas <- set_delta deltas (Group values) col delta ;;
        group_cols_loop df group_info values rest deltas
      else group_cols_loop df group_info values rest deltas
  end.

(** The [for group in group_combinations] loop. *)
Fixpoint groups_loop (df : order_frame) (group_info : ts_group_info)
    (group_combinations : list combination) (order_cols : list string)
    (deltas : delta_table) : M delta_table :=
  match group_combinations with
  | [] => ret deltas
  | DefaultGroup :: rest =>
      groups_loop df group_info rest order_cols deltas
  | Group values :: rest =>
      deltas <- group_cols_loop df group_info values order_cols
                  (<[ Group values := ∅ ]> deltas) ;;
      groups_loop df group_info rest order_cols deltas
  end.

(** [get_delta] *)
Definition get_delta (df : order_frame) (group_info : ts_group_info)
    (group_combinations : list combination) (order_cols : list string)
  : M delta_table :=
  deltas <- default_loop df order_cols {[ DefaultGroup := ∅ ]} ;;
  match group_info with
  | [] => ret deltas
  | _ :: _ => groups_loop df group_info group_combinations order_cols deltas
  end.

(** An ordering column the default delta can be taken of: it is in the
    frame, has two rows or more, and no cell of it is an empty sequence. *)
Definition differencable (df : order_frame) (col : string) : Prop :=
  exists cells, df !! col = Some cells /\ (2 <= length cells)%nat /\
                Forall (fun x => x <> []) cells.

(** The ordering column [t] of the example of the specification. *)
Definition example_frame : order_frame :=
  {[ "t"%string := [[0]; [1]; [2]; [3]; [10]; [11]; [12]] ]}.

(** ** Predicates of the encoder properties *)

(** The test the type-inference loop of [prepare] makes on one priming
    value: a value [float] rejects is skipped, a finite number must equal
    its integer part. *)
Definition integral_or_skipped (str_to_float : string -> option pyfloat)
    (v : pyval) : bool :=
  match py_float str_to_float v with
  | Some (Fin q) => Qc_eqb (qz (int_of_Qc q)) q
  | _ => true
  end.

(** A float that is not negative: zero or more, [+inf], or NaN. *)
Definition not_negative (x : pyfloat) : Prop :=
  match x with
  | Fin q => (0 <= q)%Qc
  | PInf | NaN => True
  | NInf => False
  end.

(** A decoded value that is not negative. *)
Definition decoded_not_negative (d : decoded) : Prop :=
  match d with
  | DNone => True
  | DFloat x => not_negative x
  | DInt z => 0 <= z
  end.



(** The vector width of [encode]: 3 for the target layout, 4 otherwise. *)
Definition vector_width (self : TsNumericEncoder) : nat :=
  if is_target self then 3%nat else 4%nat.

(** The assignment [encoder.positive_domain = b]. *)
Definition with_positive_domain (self : TsNumericEncoder) (b : bool)
  : TsNumericEncoder :=
  {| is_target := is_target self; _type := _type self;
     _abs_mean := _abs_mean self; positive_domain := b;
     decode_log := decode_log self;
     normalize_by_group := normalize_by_group self;
     normalizers := normalizers self; _prepared := _prepared self |}.

(** ** Naive-forecast residuals *)

(** One window of [rolling(window=m+1).apply(lambda x: abs(x.iloc[m] -
    x.iloc[0]))] over finite numbers: the distance between the first and
    the last value of the window. *)
Definition window_residual (first last : Qc) : Qc := Qcabs (last - first).

(** [get_ts_residuals] on a target column of finite numbers (what pandas
    does with missing and infinite entries is not modelled): the
    residuals are the windows from row [m] on, the scale factor is their
    [np.average]. *)
Definition get_ts_residuals (target_data : list Qc) (m : nat)
  : list Qc * pyfloat :=
  let residuals := zip_with window_residual target_data (drop m target_data) in
  (residuals, np_mean (map Fin residuals)).


(** ** The stored time-series context of the ensemble *)

(** A cell of the data frame: a string, or a boolean flag. *)
Inductive cell : Type :=
  | CStr (s : string)
  | CBool (b : bool).

#[global] Instance cell_eq_dec : EqDecision cell.
Proof. solve_decision. Defined.

(** A data frame: its column names and its rows, every row a map from
    column name to cell. *)
Record data_frame : Type := {
  df_columns : list string;
  df_rows : list (gmap string cell)
}.











(** [frame[col] = v]: the column is set in every row, and added to the
    column names when it is new. *)
Definition set_column (frame : data_frame) (col : string) (v : cell)
  : data_frame :=
  {| df_columns := if bool_decide (col ∈ df_columns frame)
                   then df_columns frame else df_columns frame ++ [col];
     df_rows := map (fun row => <[ col := v ]> row) (df_rows frame) |}.

(** [BestOf.get_context]: the frame it returns, which is also what
    [self.context] is afterwards. *)
Definition get_context (dtype_dict : gmap string string) (target : string)
    (context : data_frame) : M data_frame :=
  match dtype_dict !! target with
  | None => raise KeyError
  | Some t =>
      if String.eqb t "tsarray"
      then ret (set_column
                  (set_column context "__mdb_make_predictions" (CBool false))
                  "__lw_preprocessed" (CBool true))
      else ret context
  end.



(** A time-series frame and analysis for the closed examples: three rows
    grouped by [store], with the groups [a] and [b]. *)
Definition example_rows : list (gmap string cell) :=
  [ {[ "store"%string := CStr "a"; "t"%string := CStr "1" ]};
    {[ "store"%string := CStr "b"; "t"%string := CStr "2" ]};
    {[ "store"%string := CStr "a"; "t"%string := CStr "3" ]} ].

Definition example_data : data_frame :=
  {| df_columns := ["store"; "t"]%string; df_rows := example_rows |}.


Definition example_dtypes : gmap string string :=
  {[ "sales"%string := "tsarray"%string ]}.

(** * Properties *)

(** ** Comparisons on rationals *)



Lemma Qc_ltb_lt (x y : Qc) : Qc_ltb x y = true <-> (x < y)%Qc.
Proof.
  unfold Qc_ltb, Qclt. rewrite negb_true_iff.
  destruct (Qle_bool y x) eqn:E.
  - apply Qle_bool_iff in E. split; [discriminate|].
    intros H. exfalso. eapply Qlt_not_le; eauto.
  - split; [|reflexivity]. intros _.
    apply Qnot_le_lt. intros H. apply Qle_bool_iff in H. congruence.
Qed.

Lemma Qc_ltb_ge (x y : Qc) : Qc_ltb x y = false <-> (y <= x)%Qc.
Proof.
  unfold Qc_ltb, Qcle. rewrite negb_false_iff. apply Qle_bool_iff.
Qed.

(** ** The computation monad *)

Lemma bind_ret_l {A B} (a : A) (f : A -> M B) : bind (ret a) f = f a.
Proof. unfold bind, ret. destruct (f a). reflexivity. Qed.

Lemma bind_log_ret {A B} (l : list log_level) (a : A) (f : A -> M B) :
  bind (l, Ok a) f = (l ++ fst (f a), snd (f a)).
Proof. unfold bind. destruct (f a). reflexivity. Qed.

Lemma bind_Ok_inv {A B} (m : M A) (f : A -> M B) l (b : B) :
  bind m f = (l, Ok b) ->
  exists l1 a l2, m = (l1, Ok a) /\ f a = (l2, Ok b) /\ l = l1 ++ l2.
Proof.
  destruct m as [l1 [a|e]]; simpl; [|discriminate].
  destruct (f a) as [l2 r] eqn:E. intros [= <- ->]. eauto 6.
Qed.

Lemma map_M_ret {A B} (f : A -> M B) (g : A -> B) (l : list A) :
  (forall x, x ∈ l -> f x = ret (g x)) -> map_M f l = ret (map g l).
Proof.
  induction l as [|x l IH]; intros H; simpl; [reflexivity|].
  rewrite (H x) by left. rewrite bind_ret_l.
  rewrite IH by (intros y Hy; apply H; right; exact Hy).
  rewrite bind_ret_l. reflexivity.
Qed.

Lemma map_M_ext {A B} (f g : A -> M B) (l : list A) :
  (forall x, x ∈ l -> f x = g x) -> map_M f l = map_M g l.
Proof.
  induction l as [|x l IH]; intros H; simpl; [reflexivity|].
  rewrite (H x) by left.
  rewrite IH by (intros y Hy; apply H; right; exact Hy). reflexivity.
Qed.

(** A loop whose body never raises returns one result per element, and
    logs what the bodies log. *)
Lemma map_M_total {A B} (f : A -> M B) (l : list A) :
  (forall x, x ∈ l -> exists lg y, f x = (lg, Ok y)) ->
  exists lg ys,
    map_M f l = (lg, Ok ys) /\ length ys = length l /\
    (forall lv, lv ∈ lg -> exists x, x ∈ l /\ lv ∈ fst (f x)) /\
    (forall i x, l !! i = Some x -> exists y, ys !! i = Some y /\ snd (f x) = Ok y).
Proof.
  induction l as [|x l IH]; intros H; simpl.
  - exists [], []. repeat split; [intros lv Hlv; inversion Hlv|].
    intros i x Hx. rewrite lookup_nil in Hx. discriminate.
  - destruct (H x ltac:(left)) as (lg1 & y & Hfx).
    destruct IH as (lg2 & ys & Hmap & Hlen & Hlog & Hnth).
    { intros z Hz. apply H. right. exact Hz. }
    exists (lg1 ++ lg2), (y :: ys). rewrite Hfx, Hmap. simpl.
    rewrite app_nil_r. repeat split.
    + simpl. congruence.
    + intros lv Hlv. apply elem_of_app in Hlv as [Hlv|Hlv].
      * exists x. split; [left|]. rewrite Hfx. exact Hlv.
      * destruct (Hlog lv Hlv) as (z & Hz & Hin). exists z. split; [right|]; assumption.
    + intros [|i] z Hz; simpl in *.
      * injection Hz as <-. exists y. rewrite Hfx. split; reflexivity.
      * apply Hnth. exact Hz.
Qed.


(** ** Rows of the encoder loops *)

Lemma zip_star_tuple_nonempty {A} (cols : list (list A)) (row : list A) :
  row ∈ zip_star cols -> row <> [].
Proof.
  destruct cols as [|c cs]; [intros H; inversion H|].
  destruct cs as [|c' cs'].
  - simpl. intros H. apply list_elem_of_fmap in H as (x & -> & _). done.
  - change (zip_star (c :: c' :: cs'))
      with (zip_with cons c (zip_star (c' :: cs'))).
    intros H. apply list_elem_of_lookup in H as (i & Hi).
    apply lookup_zip_with_Some in Hi as (x & r & -> & _ & _). done.
Qed.

Lemma paired_rows_group_nonempty {A} (values : list A) given (row : A * list gval) :
  row ∈ paired_rows values given -> snd row <> [].
Proof.
  unfold paired_rows. intros H.
  apply list_elem_of_lookup in H as (i & Hi).
  apply lookup_zip_with_Some in Hi as (x & g & -> & _ & Hg).
  simpl. eapply zip_star_tuple_nonempty.
  eapply list_elem_of_lookup_2. exact Hg.
Qed.

Lemma paired_rows_default {A} (values : list A) :
  paired_rows values None = map (fun x => (x, [GEmptySet])) values.
Proof.
  unfold paired_rows, effective_group_info, default_group_info. simpl.
  induction values as [|x l IH]; simpl; [reflexivity|].
  f_equal. exact IH.
Qed.

(** ** The numeric encoder *)




Section TsNumericProperties.

Variable str_to_float : string -> option pyfloat.
Variable math_log : pyfloat -> pyfloat.
Variable math_exp : pyfloat -> option pyfloat.

Lemma resolve_mean_nonempty (self : TsNumericEncoder) (group : list gval) :
  group <> [] -> resolve_mean self group = ret (_abs_mean self).
Proof. destruct group; [done|reflexivity]. Qed.


Lemma encode_target_row_returns self real group m0 :
  group <> [] -> _abs_mean self = Some m0 ->
  exists lg v, encode_target_row math_log self real group = (lg, Ok v) /\
               (forall lv, lv ∈ lg -> lv = DEBUG).
Proof.
  intros Hg Hm. unfold encode_target_row.
  rewrite (resolve_mean_nonempty _ _ Hg), bind_ret_l, Hm.
  destruct real as [r|].
  - destruct (fgt m0 fzero).
    + eexists [], _. split; [reflexivity|]. intros lv H. inversion H.
    + eexists [DEBUG], _. split; [reflexivity|].
      intros lv H. apply list_elem_of_singleton in H. exact H.
  - eexists [DEBUG], _. split; [reflexivity|].
    intros lv H. apply list_elem_of_singleton in H. exact H.
Qed.

Lemma encode_input_row_returns self real m0 :
  _abs_mean self = Some m0 ->
  encode_input_row math_log self real
  = ret (match real with
         | None => zeros4
         | Some r => vec4 fone (log_magnitude math_log r) (sign_flag self r)
                          (fdiv r m0)
         end).
Proof. intros Hm. unfold encode_input_row. rewrite Hm. destruct real; reflexivity. Qed.

(** The group lookup of the target branch is never taken, so what
    [normalizers] holds has no effect on [encode]. *)
Lemma encode_ignores_normalizers self nz data extra :
  encode str_to_float math_log (with_normalizers self nz) data extra
  = encode str_to_float math_log self data extra.
Proof.
  unfold encode. simpl. destruct (_prepared self); simpl; [|reflexivity].
  apply map_M_ext. intros row Hrow.
  apply paired_rows_group_nonempty in Hrow.
  unfold encode_row. simpl. destruct (is_target self); [|reflexivity].
  unfold encode_target_row.
  rewrite !(resolve_mean_nonempty _ _ Hrow). reflexivity.
Qed.


Lemma encode_row_returns self row m0 :
  snd row <> [] -> _abs_mean self = Some m0 ->
  exists lg v, encode_row str_to_float math_log self row = (lg, Ok v).
Proof.
  intros Hg Hm. unfold encode_row. destruct (is_target self).
  - destruct (encode_target_row_returns self (coerce str_to_float (fst row))
                (snd row) m0 Hg Hm) as (lg & v & E & _). eauto.
  - rewrite (encode_input_row_returns _ _ m0 Hm). unfold ret. eauto.
Qed.

(** [encode] on a prepared encoder returns one vector per row. *)
Lemma encode_returns self data extra m0 :
  _prepared self = true -> _abs_mean self = Some m0 ->
  exists lg vs,
    encode str_to_float math_log self data extra = (lg, Ok vs) /\
    length vs = length (paired_rows data extra) /\
    (forall i row, paired_rows data extra !! i = Some row ->
       exists v, vs !! i = Some v /\
                 snd (encode_row str_to_float math_log self row) = Ok v).
Proof.
  intros Hp Hm. unfold encode. rewrite Hp. simpl.
  destruct (map_M_total (encode_row str_to_float math_log self)
              (paired_rows data extra)) as (lg & vs & Hmap & Hlen & _ & Hnth).
  { intros row Hrow. apply paired_rows_group_nonempty in Hrow.
    apply (encode_row_returns self row m0 Hrow Hm). }
  exists lg, vs. auto.
Qed.









Lemma infer_value_type_nones (n : nat) (t : string) :
  infer_value_type str_to_float (replicate n PyNone) t = ret t.
Proof. induction n as [|n IH]; simpl; [reflexivity|]. exact IH. Qed.


(** Priming data without any non-null value leaves a NaN mean. *)
Lemma prepare_all_none (target : bool) (n : nat) :
  prepare str_to_float (new_encoder None target) (replicate n PyNone)
  = ([], Ok (prepared_encoder target "int" NaN)).
Proof.
  unfold prepare. simpl _prepared. cbv iota.
  rewrite infer_value_type_nones, bind_ret_l.
  assert (Hf : filter (fun x => is_none x = false) (replicate n PyNone) = []).
  { induction n as [|k IH]; [reflexivity|]. simpl replicate.
    rewrite filter_cons_False by (simpl; congruence). exact IH. }
  rewrite Hf. reflexivity.
Qed.

(** One priming value [2] leaves the integer type and a mean of [2]. *)
Lemma prepare_two (target : bool) :
  prepare str_to_float (new_encoder None target) [PyNum (Fin (qz 2))]
  = ([], Ok (prepared_encoder target "int" (Fin (qz 2)))).
Proof. destruct target; vm_compute; structural_eq. Qed.

(** C1, at the failing input: the value [6] of group ['a'], whose
    normalizer has mean [3], is scaled by the unconditional mean [2] (giving
    [3]) although the group's normalizer is stored under the exact key. *)
Theorem encode_group_mean_not_used :
  lookup_normalizer grouped_target (KGroup {[ "a"%string ]})
    = Ok {| abs_mean := Fin (qz 3) |} /\
  _abs_mean grouped_target = Some (Fin (qz 2)) /\
  encode str_to_float math_log grouped_target [PyNum (Fin (qz 6))]
         (Some [("g"%string, [GStr "a"])])
    = ([], Ok [vec3 fzero (math_log (Fin (qz 6))) (Fin (qz 3))]).
Proof.
  split; [|split; [reflexivity|]].
  - vm_compute. reflexivity.
  - unfold grouped_target. rewrite encode_ignores_normalizers.
    vm_compute. structural_eq.
Qed.

(** C6, at the failing input: a scaled component of [-inf] is not caught
    by the NaN/inf test; an integer-typed target encoder then raises
    [OverflowError] from [int], and a float-typed one hands [-inf] back. *)
Theorem decode_negative_infinity_not_replaced :
  prepare str_to_float (new_encoder None true) [PyNum (Fin (qz 2))]
    = ([], Ok (prepared_encoder true "int" (Fin (qz 2)))) /\
  decode math_exp (prepared_encoder true "int" (Fin (qz 2)))
         [vec3 fzero fzero NInf] None None
    = ([], Raise OverflowError) /\
  decode math_exp (prepared_encoder true "float" (Fin (qz 2)))
         [vec3 fzero fzero NInf] None None
    = ([], Ok [DFloat NInf]).
Proof.
  split; [apply prepare_two|]. split; reflexivity.
Qed.

End TsNumericProperties.

(** *** Closed instances for the encoder *)






(** ** Ranking of the ensemble *)

Lemma np_le_total (a b : pyfloat) : np_le a b = true \/ np_le b a = true.
Proof.
  destruct a as [x| | |], b as [y| | |]; simpl; auto.
  destruct (Qc_ltb y x) eqn:E; [|auto]. right.
  apply Qc_ltb_lt in E. apply negb_true_iff, Qc_ltb_ge.
  apply Qclt_le_weak. exact E.
Qed.

Lemma np_le_fin (x y : Qc) : np_le (Fin x) (Fin y) = true <-> (x <= y)%Qc.
Proof. simpl. rewrite negb_true_iff. apply Qc_ltb_ge. Qed.

Lemma np_le_trans (a b c : pyfloat) :
  np_le a b = true -> np_le b c = true -> np_le a c = true.
Proof.
  destruct a as [x| | |], b as [y| | |], c as [z| | |];
    try (simpl; congruence).
  rewrite !np_le_fin. apply Qcle_trans.
Qed.

Section Ranking.

Variable key : nat -> pyfloat.

Lemma insert_index_perm (i : nat) (l : list nat) :
  insert_index key i l ≡ₚ i :: l.
Proof.
  induction l as [|j l IH]; simpl; [reflexivity|].
  destruct (np_le (key i) (key j)); [reflexivity|].
  rewrite IH. apply Permutation_swap.
Qed.

Lemma insert_index_sorted (i : nat) (l : list nat) :
  StronglySorted (score_le key) l -> StronglySorted (score_le key) (insert_index key i l).
Proof.
  induction l as [|j l IH]; intros Hs; simpl.
  - repeat constructor.
  - apply StronglySorted_cons in Hs as [Hj Hl].
    destruct (np_le (key i) (key j)) eqn:E.
    + apply StronglySorted_cons. split.
      * constructor; [exact E|].
        eapply Forall_impl; [exact Hj|]. intros k Hk.
        unfold score_le in *. eapply np_le_trans; eassumption.
      * apply StronglySorted_cons. split; assumption.
    + apply StronglySorted_cons. split; [|apply IH; exact Hl].
      rewrite insert_index_perm. constructor; [|exact Hj].
      unfold score_le. destruct (np_le_total (key i) (key j)); congruence.
Qed.

Lemma sort_indices_perm (l : list nat) :
  foldr (insert_index key) [] l ≡ₚ l.
Proof.
  induction l as [|i l IH]; simpl; [reflexivity|].
  rewrite insert_index_perm, IH. reflexivity.
Qed.

Lemma sort_indices_sorted (l : list nat) :
  StronglySorted (score_le key) (foldr (insert_index key) [] l).
Proof.
  induction l as [|i l IH]; simpl; [constructor|].
  apply insert_index_sorted. exact IH.
Qed.

End Ranking.

Lemma StronglySorted_reverse {A} (R : relation A) (l : list A) :
  StronglySorted R l -> StronglySorted (flip R) (reverse l).
Proof.
  induction 1 as [|x l Hs IH Hx]; [constructor|].
  rewrite reverse_cons. apply StronglySorted_app_2.
  - intros y z Hy Hz. apply list_elem_of_singleton in Hz as ->.
    rewrite elem_of_reverse in Hy. rewrite Forall_forall in Hx.
    apply Hx. exact Hy.
  - exact IH.
  - repeat constructor.
Qed.

Lemma StronglySorted_lookup {A} (R : relation A) (l : list A) i j a b :
  StronglySorted R l -> (i < j)%nat ->
  l !! i = Some a -> l !! j = Some b -> R a b.
Proof.
  intros Hs. revert i j. induction Hs as [|x l Hs IH Hx]; intros i j Hij Hi Hj.
  - rewrite lookup_nil in Hi. discriminate.
  - destruct j as [|j]; [lia|]. simpl in Hj.
    destruct i as [|i]; simpl in Hi.
    + injection Hi as <-. rewrite Forall_forall in Hx.
      apply Hx. eapply list_elem_of_lookup_2. exact Hj.
    + apply (IH i j); [lia|assumption..].
Qed.

Lemma rank_scores_perm (score_list : list pyfloat) :
  rank_scores score_list ≡ₚ seq 0 (length score_list).
Proof.
  unfold rank_scores, argsort. rewrite reverse_Permutation.
  apply sort_indices_perm.
Qed.

(** The ranked indices are in descending order of score. *)
Lemma rank_scores_descending (score_list : list pyfloat) i j a b :
  (i < j)%nat ->
  rank_scores score_list !! i = Some a ->
  rank_scores score_list !! j = Some b ->
  np_le (score_at score_list b) (score_at score_list a) = true.
Proof.
  intros Hij Hi Hj.
  pose proof (StronglySorted_reverse _ _
                (sort_indices_sorted (score_at score_list)
                   (seq 0 (length score_list)))) as Hs.
  exact (StronglySorted_lookup _ _ i j a b Hs Hij Hi Hj).
Qed.

Section EnsembleProperties.

Variables Dataset Frame : Type.
Variable evaluate_accuracy : Frame -> list pyfloat.

Lemma score_mixers_scores (ms : list (Mixer Dataset Frame)) data lg score_list :
  score_mixers evaluate_accuracy ms data = (lg, Ok score_list) ->
  Forall2 (fun m s => exists frame,
             predict m data = Ok frame /\
             s = adjusted_score (avg_score evaluate_accuracy frame))
          ms score_list.
Proof.
  revert lg score_list. induction ms as [|m ms IH]; intros lg sl H.
  - injection H as <- <-. constructor.
  - cbn [score_mixers] in H.
    apply bind_Ok_inv in H as (l1 & frame & l2 & Hp & H & ->).
    apply bind_Ok_inv in H as (l3 & u & l4 & _ & H & ->).
    apply bind_Ok_inv in H as (l5 & avg & l6 & Havg & H & ->).
    apply bind_Ok_inv in H as (l7 & sl' & l8 & Hrest & Hret & ->).
    injection Hret as <- <-. injection Hp as <- Hp.
    constructor; [|eapply IH; exact Hrest].
    exists frame. split; [exact Hp|]. unfold adjusted_score.
    destruct (is_nan_numeric (avg_score evaluate_accuracy frame));
      injection Havg as _ <-; reflexivity.
Qed.

(** C2, as amended: after construction the ranked indices are a
    permutation of the mixer indices in descending order of adjusted score
    (the averaged score, or [-2^63] when that is not finite); a mixer
    ranked by the sentinel comes after every mixer whose score is above
    [-2^63]; and the scores [0.5, NaN, 0.9] rank as [2, 0, 1]. *)
Theorem BestOf_init_ranking (ms : list (Mixer Dataset Frame)) data lg bo :
  BestOf_init evaluate_accuracy ms data = (lg, Ok bo) ->
  exists score_list,
    Forall2 (fun m s => exists frame,
               predict m data = Ok frame /\
               s = adjusted_score (avg_score evaluate_accuracy frame))
            ms score_list /\
    indexes_by_accuracy bo = rank_scores score_list /\
    indexes_by_accuracy bo ≡ₚ seq 0 (length ms) /\
    (forall i j a b,
        (i < j)%nat ->
        indexes_by_accuracy bo !! i = Some a ->
        indexes_by_accuracy bo !! j = Some b ->
        np_le (score_at score_list b) (score_at score_list a) = true) /\
    (forall i j a b q,
        indexes_by_accuracy bo !! i = Some a ->
        indexes_by_accuracy bo !! j = Some b ->
        score_at score_list a = score_sentinel ->
        score_at score_list b = Fin q ->
        (qz (- 2 ^ 63) < q)%Qc ->
        (j < i)%nat) /\
    rank_scores [Fin (qfrac 1 2); adjusted_score NaN; Fin (qfrac 9 10)]
      = [2; 0; 1]%nat.
Proof.
  unfold BestOf_init. intros H.
  destruct (score_mixers evaluate_accuracy ms data) as [lg1 [sl|e]] eqn:Hs;
    [|discriminate].
  rewrite bind_log_ret in H.
  pose proof (score_mixers_scores ms data lg1 sl Hs) as Hall.
  assert (Hidx : indexes_by_accuracy bo = rank_scores sl).
  { destruct (rank_scores sl) as [|best rest]; [discriminate|].
    destruct (ms !! best); [|discriminate].
    simpl in H. injection H as _ <-. reflexivity. }
  exists sl. split; [exact Hall|]. split; [exact Hidx|].
  rewrite Hidx. split; [|split; [|split]].
  - rewrite rank_scores_perm. rewrite (Forall2_length _ _ _ Hall). reflexivity.
  - apply rank_scores_descending.
  - intros i j a b q Hi Hj Ha Hb Hq.
    destruct (Nat.lt_trichotomy i j) as [Hlt|[Heq|Hgt]]; [| |exact Hgt].
    + pose proof (rank_scores_descending sl i j a b Hlt Hi Hj) as Hle.
      rewrite Ha, Hb in Hle. apply np_le_fin in Hle.
      exfalso. eapply Qclt_not_le; eassumption.
    + subst j. rewrite Hi in Hj. injection Hj as <-.
      rewrite Ha in Hb. injection Hb as <-.
      exfalso. exact (Qclt_not_eq _ _ Hq eq_refl).
  - reflexivity.
Qed.

(** The failover loop: the ranked mixers before the first one that either
    predicts or is stable each leave a warning and nothing else. *)
Lemma try_in_order_skips (ms : list (Mixer Dataset Frame)) ds failed rest :
  Forall (fun k => exists m e,
            ms !! k = Some m /\ stable m = false /\ predict m ds = Raise e)
         failed ->
  try_in_order ms (failed ++ rest) ds
  = (replicate (length failed) WARNING ++ fst (try_in_order ms rest ds),
     snd (try_in_order ms rest ds)).
Proof.
  induction 1 as [|k failed (m & e & Hm & Hst & Hp) _ IH]; simpl.
  - destruct (try_in_order ms rest ds). reflexivity.
  - rewrite Hm, Hp, Hst, IH. reflexivity.
Qed.

(** C3: in default mode the mixers are tried in ranked order; every
    unstable mixer that raises leaves a warning and is passed over, the
    first mixer that predicts gives the result, and a stable mixer that
    raises ends the call with its exception. *)
Theorem BestOf_call_failover (self : BestOf Dataset Frame) ds failed i mixer rest :
  indexes_by_accuracy self = failed ++ i :: rest ->
  Forall (fun k => exists m e,
            mixers self !! k = Some m /\ stable m = false /\
            predict m ds = Raise e)
         failed ->
  mixers self !! i = Some mixer ->
  (forall frame, predict mixer ds = Ok frame ->
     BestOf_call self ds false
     = (replicate (length failed) WARNING, Ok (OneFrame frame))) /\
  (forall e, predict mixer ds = Raise e -> stable mixer = true ->
     BestOf_call self ds false
     = (replicate (length failed) WARNING, Raise e)).
Proof.
  intros Hidx Hfailed Hi. unfold BestOf_call. rewrite Hidx.
  rewrite (try_in_order_skips _ ds failed (i :: rest) Hfailed).
  simpl. rewrite Hi. split.
  - intros frame ->. simpl. rewrite app_nil_r. reflexivity.
  - intros e -> ->. simpl. rewrite app_nil_r. reflexivity.
Qed.

(** When every ranked mixer is unstable and raises, the call returns
    [None] after one warning for each. *)
Lemma BestOf_call_exhausted (self : BestOf Dataset Frame) ds :
  Forall (fun k => exists m e,
            mixers self !! k = Some m /\ stable m = false /\
            predict m ds = Raise e)
         (indexes_by_accuracy self) ->
  BestOf_call self ds false
  = (replicate (length (indexes_by_accuracy self)) WARNING, Ok ReturnedNone).
Proof.
  intros H. unfold BestOf_call.
  rewrite <- (app_nil_r (indexes_by_accuracy self)) at 1.
  rewrite (try_in_order_skips _ ds _ [] H). simpl.
  rewrite app_nil_r. reflexivity.
Qed.

End EnsembleProperties.

(** *** Closed instances for the ensemble *)

(** C2, the claim as stated fails: a mixer without a finite score is
    ranked first when it is the only mixer, and also ahead of a mixer
    whose finite score lies below [-2^63]. *)
Lemma nan_mixer_ranked_first :
  snd (BestOf_init example_accuracy [example_mixer "a" true [NaN]] 0%nat)
    = Ok {| mixers := [example_mixer "a" true [NaN]];
            indexes_by_accuracy := [0%nat];
            best_supports_proba := false |} /\
  snd (BestOf_init example_accuracy
         [example_mixer "a" true [NaN];
          example_mixer "b" true [Fin (qz (- 10 ^ 30))]] 0%nat)
    = Ok {| mixers := [example_mixer "a" true [NaN];
                       example_mixer "b" true [Fin (qz (- 10 ^ 30))]];
            indexes_by_accuracy := [0%nat; 1%nat];
            best_supports_proba := false |} /\
  avg_score example_accuracy [NaN] = NaN /\
  avg_score example_accuracy [Fin (qz (- 10 ^ 30))] = Fin (qz (- 10 ^ 30)).
Proof.
  split; [vm_compute; reflexivity|]. split; [vm_compute; reflexivity|].
  split; [reflexivity|]. vm_compute. structural_eq.
Qed.

(** C2 as amended, at three mixers scoring [0.5], NaN and [0.9]. *)
Lemma BestOf_init_ranking_witness :
  exists score_list,
    Forall2 (fun m s => exists frame,
               predict m 0%nat = Ok frame /\
               s = adjusted_score (avg_score example_accuracy frame))
            [example_mixer "a" true [Fin (qfrac 1 2)];
             example_mixer "b" true [NaN];
             example_mixer "c" true [Fin (qfrac 9 10)]] score_list /\
    [2; 0; 1]%nat = rank_scores score_list /\
    [2; 0; 1]%nat ≡ₚ seq 0 3 /\
    (forall i j a b,
        (i < j)%nat ->
        [2; 0; 1]%nat !! i = Some a ->
        [2; 0; 1]%nat !! j = Some b ->
        np_le (score_at score_list b) (score_at score_list a) = true) /\
    (forall i j a b q,
        [2; 0; 1]%nat !! i = Some a ->
        [2; 0; 1]%nat !! j = Some b ->
        score_at score_list a = score_sentinel ->
        score_at score_list b = Fin q ->
        (qz (- 2 ^ 63) < q)%Qc ->
        (j < i)%nat) /\
    rank_scores [Fin (qfrac 1 2); adjusted_score NaN; Fin (qfrac 9 10)]
      = [2; 0; 1]%nat.
Proof.
  apply (BestOf_init_ranking nat (list pyfloat) example_accuracy
           [example_mixer "a" true [Fin (qfrac 1 2)];
            example_mixer "b" true [NaN];
            example_mixer "c" true [Fin (qfrac 9 10)]] 0%nat
           [INFO; INFO; WARNING; INFO; INFO]
           {| mixers := [example_mixer "a" true [Fin (qfrac 1 2)];
                         example_mixer "b" true [NaN];
                         example_mixer "c" true [Fin (qfrac 9 10)]];
              indexes_by_accuracy := [2; 0; 1]%nat;
              best_supports_proba := false |}).
  vm_compute. reflexivity.
Defined.

(** C3 at an ensemble whose top-ranked mixer is unstable and raises on
    the data to predict, and whose next mixer predicts. *)
Lemma BestOf_call_failover_witness :
  (forall frame,
     predict (example_mixer "b" true [Fin (qfrac 1 2)]) 1%nat = Ok frame ->
     BestOf_call {| mixers := [example_mixer "b" true [Fin (qfrac 1 2)];
                               failing_mixer "a" false [Fin (qfrac 9 10)]];
                    indexes_by_accuracy := [1; 0]%nat;
                    best_supports_proba := false |} 1%nat false
     = (replicate (length [1%nat]) WARNING, Ok (OneFrame frame))) /\
  (forall e,
     predict (example_mixer "b" true [Fin (qfrac 1 2)]) 1%nat = Raise e ->
     stable (example_mixer "b" true [Fin (qfrac 1 2)]) = true ->
     BestOf_call {| mixers := [example_mixer "b" true [Fin (qfrac 1 2)];
                               failing_mixer "a" false [Fin (qfrac 9 10)]];
                    indexes_by_accuracy := [1; 0]%nat;
                    best_supports_proba := false |} 1%nat false
     = (replicate (length [1%nat]) WARNING, Raise e)).
Proof.
  apply (BestOf_call_failover nat (list pyfloat)
           {| mixers := [example_mixer "b" true [Fin (qfrac 1 2)];
                         failing_mixer "a" false [Fin (qfrac 9 10)]];
              indexes_by_accuracy := [1; 0]%nat;
              best_supports_proba := false |}
           1%nat [1%nat] 0%nat (example_mixer "b" true [Fin (qfrac 1 2)]) []).
  - reflexivity.
  - constructor; [|constructor].
    exists (failing_mixer "a" false [Fin (qfrac 9 10)]),
           (Exception "prediction failed").
    repeat split.
  - reflexivity.
Defined.

(** C4, at the failing input: the only mixer is unstable, ranks first on
    the validation data and raises on the data to predict; the call logs a
    warning and returns [None] instead of raising. *)
Theorem BestOf_call_exhausted_returns_none :
  BestOf_init example_accuracy
    [failing_mixer "a" false [Fin (qfrac 9 10)]] 0%nat
    = ([INFO; INFO],
       Ok {| mixers := [failing_mixer "a" false [Fin (qfrac 9 10)]];
             indexes_by_accuracy := [0%nat];
             best_supports_proba := false |}) /\
  BestOf_call {| mixers := [failing_mixer "a" false [Fin (qfrac 9 10)]];
                 indexes_by_accuracy := [0%nat];
                 best_supports_proba := false |} 1%nat false
    = ([WARNING], Ok ReturnedNone).
Proof. split; vm_compute; reflexivity. Qed.

(** ** Delta inference *)








Lemma insert_by_count_not_nil x l : insert_by_count x l <> [].
Proof.
  destruct l as [|y l]; simpl; [done|].
  destruct (Nat.leb (snd y) (snd x)); done.
Qed.

Lemma most_frequent_returns (l : list Z) :
  l <> [] -> exists d, most_frequent l = ret d.
Proof.
  intros Hl. unfold most_frequent, value_counts.
  destruct l as [|x l]; [done|]. simpl.
  destruct (insert_by_count _ _) as [|[d c] t] eqn:E.
  - exfalso. exact (insert_by_count_not_nil _ _ E).
  - eauto.
Qed.

Lemma last_of_each_returns (df : order_frame) col cells :
  df !! col = Some cells -> Forall (fun x => x <> []) cells ->
  exists series, last_of_each df col = ret series /\
                 length series = length cells.
Proof.
  intros Hc Hne. unfold last_of_each. rewrite Hc.
  exists (map (fun x => default 0 (last x)) cells). split; [|apply length_map].
  apply map_M_ret. intros x Hx. rewrite Forall_forall in Hne.
  destruct (last x) eqn:E; [reflexivity|].
  apply last_None in E. exfalso. exact (Hne x Hx E).
Qed.

Lemma rolling_diff_not_nil (series : list Z) :
  (2 <= length series)%nat -> rolling_diff series <> [].
Proof. destruct series as [|a [|b r]]; simpl; [lia|lia|done]. Qed.

Lemma differencable_delta (df : order_frame) col :
  differencable df col ->
  exists series d, last_of_each df col = ret series /\
                   most_frequent (rolling_diff series) = ret d.
Proof.
  intros (cells & Hc & Hlen & Hne).
  destruct (last_of_each_returns df col cells Hc Hne) as (series & Hs & Hl).
  destruct (most_frequent_returns (rolling_diff series)) as (d & Hd).
  { apply rolling_diff_not_nil. lia. }
  eauto.
Qed.

Lemma set_delta_present (deltas : delta_table) group inner col d :
  deltas !! group = Some inner ->
  set_delta deltas group col d
  = ret (<[ group := <[ col := d ]> inner ]> deltas).
Proof. intros H. unfold set_delta. rewrite H. reflexivity. Qed.

(** The first loop: it fills the ['__default'] entry with the delta of
    every ordering column and touches nothing else of that entry. *)
Lemma default_loop_spec (df : order_frame) order_cols :
  (forall col, col ∈ order_cols -> differencable df col) ->
  forall (deltas : delta_table) inner0,
    deltas !! DefaultGroup = Some inner0 ->
    exists deltas' inner,
      default_loop df order_cols deltas = ret deltas' /\
      deltas' !! DefaultGroup = Some inner /\
      (forall col, col ∈ order_cols ->
         exists series d,
           last_of_each df col = ret series /\
           most_frequent (rolling_diff series) = ret d /\
           inner !! col = Some d) /\
      (forall col, col ∉ order_cols -> inner !! col = inner0 !! col).
Proof.
  induction order_cols as [|col rest IH]; intros Hwf deltas inner0 H0.
  - exists deltas, inner0. split; [reflexivity|]. split; [exact H0|].
    split; [intros c Hc; inversion Hc|reflexivity].
  - destruct (differencable_delta df col (Hwf col ltac:(left)))
      as (series & d & Hs & Hd).
    cbn [default_loop]. rewrite Hs, bind_ret_l, Hd, bind_ret_l.
    rewrite (set_delta_present _ _ _ _ _ H0), bind_ret_l.
    destruct (IH (fun c Hc => Hwf c ltac:(right; exact Hc))
                (<[ DefaultGroup := <[ col := d ]> inner0 ]> deltas)
                (<[ col := d ]> inner0))
      as (deltas' & inner & Hrun & Hdef & Hin & Hout).
    { apply lookup_insert_eq. }
    exists deltas', inner. split; [exact Hrun|]. split; [exact Hdef|]. split.
    + intros c Hc. destruct (decide (c ∈ rest)) as [Hr|Hr]; [apply Hin, Hr|].
      apply elem_of_cons in Hc as [->|Hc]; [|contradiction].
      exists series, d. split; [exact Hs|]. split; [exact Hd|].
      rewrite (Hout col Hr). apply lookup_insert_eq.
    + intros c Hc. apply not_elem_of_cons in Hc as [Hne Hr].
      rewrite (Hout c Hr). apply lookup_insert_ne. congruence.
Qed.


(** A group with fewer than two matching rows in every ordering column
    is passed over: the column loop changes nothing and raises nothing. *)
Lemma group_cols_loop_short (df : order_frame) gi values order_cols
    (deltas : delta_table) :
  (forall col, col ∈ order_cols ->
     exists data, last_of_each df col = ret data /\
       (length (snd (get_group_matches gi data values)) <= 1)%nat) ->
  group_cols_loop df gi values order_cols deltas = ret deltas.
Proof.
  induction order_cols as [|col rest IH]; intros H; [reflexivity|].
  destruct (H col ltac:(left)) as (data & Hs & Hlen).
  cbn [group_cols_loop]. rewrite Hs, bind_ret_l.
  replace (1 <? length (snd (get_group_matches gi data values)))%nat
    with false by (symmetry; apply Nat.ltb_ge; exact Hlen).
  apply IH. intros c Hc. apply H. right. exact Hc.
Qed.




(** C8, at the failing input: with a single row there is no difference to
    count, and the first loop raises [IndexError] before any table is
    returned; the per-group loop, which tests the subset size, passes over
    the one-row group ['a'] of a three-row frame. *)
Theorem get_delta_single_row_raises :
  get_delta {[ "t"%string := [[5]] ]} [] [DefaultGroup] ["t"%string]
    = ([], Raise IndexError) /\
  get_delta {[ "t"%string := [[0]; [1]; [2]] ]}
            [("g"%string, ["a"; "b"; "b"]%string)]
            [DefaultGroup; Group ["a"%string]; Group ["b"%string]]
            ["t"%string]
    = ([], Ok {[ DefaultGroup := {[ "t"%string := 1 ]};
                 Group ["a"%string] := ∅;
                 Group ["b"%string] := {[ "t"%string := 1 ]} ]}).
Proof. split; vm_compute; reflexivity. Qed.

(** * Further properties of the encoder *)

Lemma map_M_Ok_inv {A B} (f : A -> M B) (l : list A) lg (ys : list B) :
  map_M f l = (lg, Ok ys) ->
  Forall2 (fun x y => exists lx, f x = (lx, Ok y)) l ys.
Proof.
  revert lg ys. induction l as [|x l IH]; intros lg ys H.
  - injection H as _ <-. constructor.
  - cbn [map_M] in H.
    apply bind_Ok_inv in H as (l1 & y & l2 & Hy & H & ->).
    apply bind_Ok_inv in H as (l3 & ys' & l4 & Hys & H & ->).
    injection H as _ <-. constructor; eauto.
Qed.


Lemma qz_nonneg (z : Z) : 0 <= z -> (0 <= qz z)%Qc.
Proof.
  intros Hz. unfold Qcle, qz. cbn [this Q2Qc]. rewrite inject_Z_Qred.
  unfold Qle. simpl. lia.
Qed.


Lemma Qc_div_nonneg (a n : Qc) : (0 <= a)%Qc -> (0 <= n)%Qc -> (0 <= a / n)%Qc.
Proof.
  unfold Qcle, Qcdiv, Qcmult, Qcinv. cbn [this Q2Qc]. intros Ha Hn.
  change (Qred 0) with 0%Q in *.
  rewrite !Qred_correct.
  apply Qmult_le_0_compat; [exact Ha|]. apply Qinv_le_0_compat. exact Hn.
Qed.

Section TsNumericLifecycle.

Variable str_to_float : string -> option pyfloat.
Variable math_log : pyfloat -> pyfloat.
Variable math_exp : pyfloat -> option pyfloat.

(** What a successful [prepare] went through. *)
Lemma prepare_Ok_inv self data lg enc :
  prepare str_to_float self data = (lg, Ok enc) ->
  _prepared self = false /\
  exists l1 l2 value_type non_null,
    infer_value_type str_to_float data "int" = (l1, Ok value_type) /\
    map_M (float_of_str_of str_to_float)
          (filter (fun x => is_none x = false) data) = (l2, Ok non_null) /\
    _prepared enc = true /\
    _abs_mean enc = Some (np_mean (map fabs non_null)) /\
    _type enc = Some (default value_type (_type self)) /\
    is_target enc = is_target self /\
    positive_domain enc = positive_domain self /\
    normalizers enc = normalizers self.
Proof.
  unfold prepare. destruct (_prepared self); [discriminate|]. intros H.
  split; [reflexivity|].
  apply bind_Ok_inv in H as (l1 & vt & l2 & Hvt & H & ->).
  apply bind_Ok_inv in H as (l3 & nn & l4 & Hnn & H & ->).
  injection H as _ <-. exists l1, l3, vt, nn.
  repeat split; try assumption. simpl. destruct (_type self); reflexivity.
Qed.


Lemma infer_value_type_result data t lg t' :
  infer_value_type str_to_float data t = (lg, Ok t') ->
  t' = if forallb (integral_or_skipped str_to_float) data then t
       else "float"%string.
Proof.
  revert t. induction data as [|v data IH]; intros t H.
  - injection H as _ <-. reflexivity.
  - cbn [infer_value_type forallb] in *. unfold integral_or_skipped at 1.
    destruct (py_float str_to_float v) as [[q| | |]|];
      try discriminate; cbn [andb]; [|apply IH; exact H].
    destruct (Qc_eqb (qz (int_of_Qc q)) q); cbn [andb]; [apply IH; exact H|].
    rewrite (IH _ H). destruct (forallb _ data); reflexivity.
Qed.

(** X2: when no type was declared, a successful [prepare] sets the type to
    ['int'] if every priming number is integral and to ['float'] otherwise;
    a declared type is kept. *)
Theorem prepare_infers_type self data lg enc :
  prepare str_to_float self data = (lg, Ok enc) ->
  _type enc
  = Some (match _type self with
          | Some t => t
          | None =>
              if forallb (integral_or_skipped str_to_float) data
              then "int"%string else "float"%string
          end).
Proof.
  intros H.
  apply prepare_Ok_inv in H
    as (_ & l1 & l2 & vt & nn & Hvt & _ & _ & _ & Ht & _).
  rewrite Ht. apply infer_value_type_result in Hvt.
  destruct (_type self); simpl; [reflexivity|]. rewrite Hvt. reflexivity.
Qed.

(** X3: [prepare] rejects priming data whose first number that is not
    finite is a NaN: it logs an error and raises, leaving no encoder. *)
Theorem prepare_rejects_nan self pre x post :
  _prepared self = false ->
  Forall (fun v => py_float str_to_float v = None \/
                   exists q, py_float str_to_float v = Some (Fin q)) pre ->
  py_float str_to_float x = Some NaN ->
  prepare str_to_float self (pre ++ x :: post)
  = ([ERROR],
     Raise (Exception "Lightwood does not support working with NaN values !")).
Proof.
  intros Hp Hpre Hx. unfold prepare. rewrite Hp.
  assert (H : forall t, infer_value_type str_to_float (pre ++ x :: post) t
            = ([ERROR],
               Raise (Exception "Lightwood does not support working with NaN values !"))).
  { induction Hpre as [|v pre [Hv|[q Hv]] _ IH]; intros t; cbn [app infer_value_type].
    - rewrite Hx. reflexivity.
    - rewrite Hv. apply IH.
    - rewrite Hv. apply IH. }
  rewrite H. reflexivity.
Qed.

Lemma np_sum_abs_not_negative (l : list pyfloat) (acc : pyfloat) :
  not_negative acc -> not_negative (foldl fadd acc (map fabs l)).
Proof.
  revert acc. induction l as [|x l IH]; intros acc Hacc; [exact Hacc|].
  cbn [map foldl]. apply IH.
  destruct acc as [a| | |], x as [q| | |]; simpl in *; try exact I;
    try contradiction.
  replace 0%Qc with (0 + 0)%Qc by reflexivity.
  apply Qcplus_le_compat; [exact Hacc|apply Qcabs_nonneg].
Qed.

Lemma np_mean_abs_not_negative (l : list pyfloat) :
  not_negative (np_mean (map fabs l)).
Proof.
  unfold np_mean, np_sum.
  pose proof (np_sum_abs_not_negative l fzero (Qcle_refl 0)) as Hs.
  pose proof (qz_nonneg (Z.of_nat (length (map fabs l))) ltac:(lia)) as Hn.
  destruct (foldl fadd fzero (map fabs l)) as [a| | |]; simpl in *;
    try exact I; try contradiction.
  - destruct (Qc_eqb (qz (Z.of_nat (length (map fabs l)))) (qz 0)).
    + unfold fsign. destruct (Qc_eqb a (qz 0)); [exact I|].
      destruct (Qc_ltb a (qz 0)) eqn:E; [|exact I].
      apply Qc_ltb_lt in E. exfalso. eapply Qclt_not_le; eassumption.
    + simpl. apply Qc_div_nonneg; assumption.
  - destruct (Qc_ltb _ (qz 0)) eqn:E; [|exact I].
    apply Qc_ltb_lt in E. exfalso. eapply Qclt_not_le; eassumption.
Qed.

(** X4: the mean [prepare] stores is never negative: it is a finite
    number that is zero or more, or [+inf], or NaN. *)
Theorem prepare_mean_not_negative self data lg enc :
  prepare str_to_float self data = (lg, Ok enc) ->
  exists m, _abs_mean enc = Some m /\ not_negative m.
Proof.
  intros H.
  apply prepare_Ok_inv in H
    as (_ & l1 & l2 & vt & nn & _ & _ & _ & Hm & _).
  eexists. split; [exact Hm|]. apply np_mean_abs_not_negative.
Qed.

Lemma encode_row_width self row v :
  snd (encode_row str_to_float math_log self row) = Ok v ->
  length v = vector_width self.
Proof.
  unfold encode_row, vector_width. destruct (is_target self).
  - unfold encode_target_row.
    destruct (resolve_mean self (snd row)) as [l [mean|e]]; [|discriminate].
    unfold bind. destruct (coerce str_to_float (fst row)) as [r|].
    + destruct mean as [m|]; [|discriminate].
      destruct (fgt m fzero); simpl; intros [= <-]; reflexivity.
    + simpl. intros [= <-]. reflexivity.
  - unfold encode_input_row. destruct (coerce str_to_float (fst row)).
    + destruct (_abs_mean self); simpl; intros [= <-]; reflexivity.
    + simpl. intros [= <-]. reflexivity.
Qed.

(** X5: on a prepared encoder [encode] returns one vector per row, every
    vector of width 3 for a target encoder and 4 otherwise; without group
    information there is one row per value. *)
Theorem encode_shape self data extra m0 :
  _prepared self = true -> _abs_mean self = Some m0 ->
  exists lg vs,
    encode str_to_float math_log self data extra = (lg, Ok vs) /\
    length vs = length (paired_rows data extra) /\
    (extra = None -> length vs = length data) /\
    Forall (fun v => length v = vector_width self) vs.
Proof.
  intros Hp Hm.
  destruct (encode_returns str_to_float math_log self data extra m0 Hp Hm)
    as (lg & vs & E & Hlen & Hnth).
  exists lg, vs. split; [exact E|]. split; [exact Hlen|]. split.
  - intros ->. rewrite Hlen, paired_rows_default. apply length_map.
  - apply Forall_lookup. intros i v Hv.
    destruct (lookup_lt_is_Some_2 (paired_rows data extra) i) as [row Hrow].
    { rewrite <- Hlen. eapply lookup_lt_Some. exact Hv. }
    destruct (Hnth i row Hrow) as (v' & Hv' & Hsnd).
    rewrite Hv in Hv'. injection Hv' as <-.
    eapply encode_row_width. exact Hsnd.
Qed.

(** X6: a value that neither [float] nor the comma-for-point retry can
    read (a [None], an unreadable string) encodes as the all-zero vector
    of its layout; nothing is raised. *)
Theorem encode_unreadable_is_zero self data extra m0 i row :
  _prepared self = true -> _abs_mean self = Some m0 ->
  paired_rows data extra !! i = Some row ->
  coerce str_to_float (fst row) = None ->
  exists lg vs,
    encode str_to_float math_log self data extra = (lg, Ok vs) /\
    vs !! i = Some (if is_target self then zeros3 else zeros4).
Proof.
  intros Hp Hm Hrow Hnone.
  destruct (encode_returns str_to_float math_log self data extra m0 Hp Hm)
    as (lg & vs & E & _ & Hnth).
  exists lg, vs. split; [exact E|].
  destruct (Hnth i row Hrow) as (v & Hv & Hsnd). rewrite Hv. f_equal.
  unfold encode_row in Hsnd. rewrite Hnone in Hsnd.
  destruct (is_target self).
  - unfold encode_target_row in Hsnd.
    rewrite resolve_mean_nonempty in Hsnd
      by (eapply paired_rows_group_nonempty, list_elem_of_lookup_2, Hrow).
    rewrite bind_ret_l in Hsnd. simpl in Hsnd. congruence.
  - simpl in Hsnd. congruence.
Qed.















Lemma sentinel_not_negative : 0 <= sentinel_10_63.
Proof. unfold sentinel_10_63. apply Z.pow_nonneg. lia. Qed.

Lemma py_abs_not_negative (d : decoded) : decoded_not_negative (py_abs d).
Proof.
  destruct d as [|[q| | |]|z]; simpl; try exact I.
  - apply Qcabs_nonneg.
  - apply Z.abs_nonneg.
Qed.

Lemma int_of_decoded_not_negative (d d' : decoded) l :
  decoded_not_negative d -> int_of_decoded d = (l, Ok d') ->
  decoded_not_negative d'.
Proof.
  destruct d as [|[q| | |]|z]; simpl; try discriminate.
  - intros Hq [= _ <-]. simpl. unfold int_of_Qc.
    apply Z.quot_pos; [|apply Pos2Z.is_pos].
    unfold Qcle, Qle in Hq. simpl in Hq. lia.
  - intros Hz [= _ <-]. exact Hz.
Qed.

Lemma decode_target_row_not_negative self use_log v g l d :
  positive_domain self = true ->
  decode_target_row math_exp self use_log v g = (l, Ok d) ->
  decoded_not_negative d.
Proof.
  intros Hdom H. unfold decode_target_row in H.
  apply bind_Ok_inv in H as (l0 & v0 & l0' & _ & H & ->).
  destruct (nan_or_inf v0);
    [injection H as _ <-; exact sentinel_not_negative|].
  apply bind_Ok_inv in H as (l1 & v1 & l1' & _ & H & ->).
  destruct (nan_or_inf v1);
    [injection H as _ <-; exact sentinel_not_negative|].
  apply bind_Ok_inv in H as (l2 & v2 & l2' & _ & H & ->).
  destruct (nan_or_inf v2);
    [injection H as _ <-; exact sentinel_not_negative|].
  unfold reconstruct_target in H.
  apply bind_Ok_inv in H as (l3 & rv & l3' & _ & H & ->).
  rewrite Hdom in H. destruct (type_is_int self).
  - eapply int_of_decoded_not_negative; [apply py_abs_not_negative|exact H].
  - injection H as _ <-. apply py_abs_not_negative.
Qed.

(** X11: with the positive domain set, whatever a target encoder decodes
    is not negative: a float that is zero or more (or [+inf] or NaN), or an
    int that is zero or more. *)
Theorem decode_positive_domain self vs decode_log_arg gi lg ds :
  is_target self = true -> positive_domain self = true ->
  decode math_exp self vs decode_log_arg gi = (lg, Ok ds) ->
  Forall decoded_not_negative ds.
Proof.
  intros Ht Hdom H. unfold decode in H.
  destruct (negb (_prepared self)); [discriminate|].
  apply map_M_Ok_inv in H.
  induction H as [|row d rows ds' (l & Hrow) _ IH]; constructor; [|exact IH].
  unfold decode_row in Hrow. rewrite Ht in Hrow.
  eapply decode_target_row_not_negative; eassumption.
Qed.

End TsNumericLifecycle.

(** *** Closed instances of the further encoder properties *)


(** X2 at the same encoder. *)
Lemma prepare_infers_type_witness :
  _type (prepared_encoder true "int" (Fin (qz 2)))
  = Some (match _type (new_encoder None true) with
          | Some t => t
          | None =>
              if forallb (integral_or_skipped example_float)
                         [PyNum (Fin (qz 2))]
              then "int"%string else "float"%string
          end).
Proof.
  apply (prepare_infers_type example_float (new_encoder None true)
           [PyNum (Fin (qz 2))] []
           (prepared_encoder true "int" (Fin (qz 2)))).
  apply prepare_two.
Defined.

(** X3 at the priming data [1, None, NaN, 4]. *)
Lemma prepare_rejects_nan_witness :
  prepare example_float (new_encoder None false)
          ([PyNum (Fin (qz 1)); PyNone] ++ PyNum NaN :: [PyNum (Fin (qz 4))])
  = ([ERROR],
     Raise (Exception "Lightwood does not support working with NaN values !")).
Proof.
  apply (prepare_rejects_nan example_float (new_encoder None false)
           [PyNum (Fin (qz 1)); PyNone] (PyNum NaN) [PyNum (Fin (qz 4))]).
  - reflexivity.
  - constructor; [right; eexists; reflexivity|].
    constructor; [left; reflexivity|]. constructor.
  - reflexivity.
Defined.

(** X4 at a fresh encoder primed with [2]. *)
Lemma prepare_mean_not_negative_witness :
  exists m, _abs_mean (prepared_encoder true "int" (Fin (qz 2))) = Some m /\
            not_negative m.
Proof.
  apply (prepare_mean_not_negative example_float (new_encoder None true)
           [PyNum (Fin (qz 2))] []
           (prepared_encoder true "int" (Fin (qz 2)))).
  apply prepare_two.
Defined.

(** X5 at a target encoder with mean [2], on a number and a [None]. *)
Lemma encode_shape_witness :
  exists lg vs,
    encode example_float example_log (prepared_encoder true "int" (Fin (qz 2)))
           [PyNum (Fin (qz 1)); PyNone] None = (lg, Ok vs) /\
    length vs = length (paired_rows [PyNum (Fin (qz 1)); PyNone] None) /\
    (@None group_info_t = None ->
     length vs = length [PyNum (Fin (qz 1)); PyNone]) /\
    Forall (fun v => length v
                     = vector_width (prepared_encoder true "int" (Fin (qz 2))))
           vs.
Proof.
  apply (encode_shape example_float example_log
           (prepared_encoder true "int" (Fin (qz 2)))
           [PyNum (Fin (qz 1)); PyNone] None (Fin (qz 2))); reflexivity.
Defined.

(** X6 at the same encoder and batch, for the [None] in row 1. *)
Lemma encode_unreadable_is_zero_witness :
  exists lg vs,
    encode example_float example_log (prepared_encoder true "int" (Fin (qz 2)))
           [PyNum (Fin (qz 1)); PyNone] None = (lg, Ok vs) /\
    vs !! 1%nat
    = Some (if is_target (prepared_encoder true "int" (Fin (qz 2)))
            then zeros3 else zeros4).
Proof.
  apply (encode_unreadable_is_zero example_float example_log
           (prepared_encoder true "int" (Fin (qz 2)))
           [PyNum (Fin (qz 1)); PyNone] None (Fin (qz 2)) 1%nat
           (PyNone, [GEmptySet])); reflexivity.
Defined.





(** X11 at a positive-domain target encoder with mean [2] and a vector
    whose scaled component is [-3]. *)
Lemma decode_positive_domain_witness :
  decode example_exp
         (with_positive_domain (prepared_encoder true "int" (Fin (qz 2))) true)
         [vec3 fone fzero (Fin (qz (-3)))] (Some false) None
    = ([], Ok [DInt 6]) /\
  Forall decoded_not_negative [DInt 6].
Proof.
  split; [reflexivity|].
  apply (decode_positive_domain example_exp
           (with_positive_domain (prepared_encoder true "int" (Fin (qz 2))) true)
           [vec3 fone fzero (Fin (qz (-3)))] (Some false) None [] [DInt 6]);
    reflexivity.
Defined.

(** * Further properties of the ensemble *)

Lemma np_le_refl (a : pyfloat) : np_le a a = true.
Proof.
  destruct a as [x| | |]; try reflexivity.
  apply np_le_fin. apply Qcle_refl.
Qed.

Lemma mixer_key_inj (a b : string) :
  ("__mdb_mixer_" +:+ a = "__mdb_mixer_" +:+ b)%string -> a = b.
Proof. intros H. by simplify_eq/=. Qed.

Section EnsembleFurther.

Variables Dataset Frame : Type.
Variable evaluate_accuracy : Frame -> list pyfloat.

(** X12: the first ranked index is a mixer of maximal adjusted score, and
    the ensemble's [supports_proba] is that mixer's. *)
Theorem BestOf_init_best (ms : list (Mixer Dataset Frame)) data lg bo :
  BestOf_init evaluate_accuracy ms data = (lg, Ok bo) ->
  exists score_list best rest m,
    Forall2 (fun m s => exists frame,
               predict m data = Ok frame /\
               s = adjusted_score (avg_score evaluate_accuracy frame))
            ms score_list /\
    indexes_by_accuracy bo = best :: rest /\
    ms !! best = Some m /\
    best_supports_proba bo = supports_proba m /\
    (forall k, (k < length ms)%nat ->
       np_le (score_at score_list k) (score_at score_list best) = true).
Proof.
  unfold BestOf_init. intros H.
  destruct (score_mixers evaluate_accuracy ms data) as [lg1 [sl|e]] eqn:Hs;
    [|discriminate].
  rewrite bind_log_ret in H.
  pose proof (score_mixers_scores _ _ evaluate_accuracy ms data lg1 sl Hs)
    as Hall.
  destruct (rank_scores sl) as [|best rest] eqn:Hrank; [discriminate|].
  destruct (ms !! best) as [m|] eqn:Hm; [|discriminate].
  simpl in H. injection H as _ <-. simpl.
  exists sl, best, rest, m. repeat split; try assumption.
  intros k Hk.
  assert (Hin : k ∈ rank_scores sl).
  { rewrite rank_scores_perm. apply elem_of_seq.
    rewrite <- (Forall2_length _ _ _ Hall). lia. }
  apply list_elem_of_lookup in Hin as ([|j] & Hj).
  - rewrite Hrank in Hj. injection Hj as <-. apply np_le_refl.
  - apply (rank_scores_descending sl 0 (S j) best k); [lia| |exact Hj].
    rewrite Hrank. reflexivity.
Qed.

Lemma score_mixers_raises (pre : list (Mixer Dataset Frame)) m post data e :
  Forall (fun m' => exists frame, predict m' data = Ok frame) pre ->
  predict m data = Raise e ->
  exists lg, score_mixers evaluate_accuracy (pre ++ m :: post) data
             = (lg, Raise e).
Proof.
  intros Hpre Hm. induction Hpre as [|m' pre (frame & Hf) _ (lg & IH)].
  - exists []. simpl. rewrite Hm. reflexivity.
  - cbn [app score_mixers]. rewrite Hf, IH.
    change (lift (Ok frame)) with (ret frame). rewrite bind_ret_l.
    destruct (is_nan_numeric (avg_score evaluate_accuracy frame));
      eexists; reflexivity.
Qed.

(** X13: construction has no failover: when a mixer raises on the
    validation data, stable or not, [BestOf.__init__] ends with that
    exception. *)
Theorem BestOf_init_propagates (pre : list (Mixer Dataset Frame)) m post data e :
  Forall (fun m' => exists frame, predict m' data = Ok frame) pre ->
  predict m data = Raise e ->
  exists lg, BestOf_init evaluate_accuracy (pre ++ m :: post) data
             = (lg, Raise e).
Proof.
  intros Hpre Hm.
  destruct (score_mixers_raises pre m post data e Hpre Hm) as (lg & H).
  exists lg. unfold BestOf_init. rewrite H. reflexivity.
Qed.

Lemma run_all_raises (pre : list (Mixer Dataset Frame)) m post ds e :
  Forall (fun m' => exists frame, predict m' ds = Ok frame) pre ->
  predict m ds = Raise e ->
  forall acc, run_all (pre ++ m :: post) ds acc = ([], Raise e).
Proof.
  intros Hpre Hm. induction Hpre as [|m' pre (frame & Hf) _ IH]; intros acc.
  - simpl. rewrite Hm. reflexivity.
  - cbn [app run_all]. rewrite Hf.
    change (lift (Ok frame)) with (ret frame). rewrite bind_ret_l. apply IH.
Qed.

(** X14: in all-mixers mode nothing is caught: the first mixer that
    raises, stable or not, ends the call with its exception. *)
Theorem BestOf_call_all_mixers_raises (self : BestOf Dataset Frame)
    pre m post ds e :
  mixers self = pre ++ m :: post ->
  Forall (fun m' => exists frame, predict m' ds = Ok frame) pre ->
  predict m ds = Raise e ->
  BestOf_call self ds true = ([], Raise e).
Proof.
  intros Hms Hpre Hm. unfold BestOf_call. rewrite Hms.
  rewrite (run_all_raises pre m post ds e Hpre Hm). reflexivity.
Qed.

Lemma run_all_returns (ms : list (Mixer Dataset Frame)) frames ds :
  Forall2 (fun m frame => predict m ds = Ok frame) ms frames ->
  NoDup (map mixer_name ms) ->
  forall acc : gmap string Frame,
  exists predictions : gmap string Frame,
    run_all ms ds acc = ret predictions /\
    (forall i m frame,
        ms !! i = Some m -> frames !! i = Some frame ->
        predictions !! ("__mdb_mixer_" +:+ mixer_name m)%string = Some frame) /\
    (forall k : string,
        (forall m, m ∈ ms -> k <> ("__mdb_mixer_" +:+ mixer_name m)%string) ->
        predictions !! k = acc !! k).
Proof.
  induction 1 as [|m frame ms frames Hf _ IH]; intros Hnd acc.
  - exists acc. split; [reflexivity|]. split; [|reflexivity].
    intros i m frame Hm. rewrite lookup_nil in Hm. discriminate.
  - cbn [map] in Hnd. apply NoDup_cons in Hnd as [Hnotin Hnd].
    destruct (IH Hnd (<[ ("__mdb_mixer_" +:+ mixer_name m)%string := frame ]> acc))
      as (p & Hrun & Hin & Hout).
    exists p. cbn [run_all]. rewrite Hf.
    change (lift (Ok frame)) with (ret frame). rewrite bind_ret_l.
    split; [exact Hrun|]. split.
    + intros [|i] m' frame' Hm' Hfr; simpl in Hm', Hfr.
      * injection Hm' as <-. injection Hfr as <-.
        rewrite Hout; [apply lookup_insert_eq|].
        intros m' Hm' Heq. apply mixer_key_inj in Heq.
        apply Hnotin. rewrite Heq. apply list_elem_of_fmap.
        exists m'. split; [reflexivity|exact Hm'].
      * eapply Hin; eassumption.
    + intros k Hk. rewrite Hout.
      * apply lookup_insert_ne. intros Heq. apply (Hk m); [left|].
        symmetry. exact Heq.
      * intros m' Hm'. apply Hk. right. exact Hm'.
Qed.

(** X15: in all-mixers mode, when every mixer predicts and the mixers
    have different names, the call returns one column per mixer, named
    [__mdb_mixer_] followed by the mixer's name and holding that mixer's
    frame, and no other column. *)
Theorem BestOf_call_all_mixers_returns (self : BestOf Dataset Frame) frames ds :
  Forall2 (fun m frame => predict m ds = Ok frame) (mixers self) frames ->
  NoDup (map mixer_name (mixers self)) ->
  exists predictions : gmap string Frame,
    BestOf_call self ds true = ([], Ok (AllFrames predictions)) /\
    (forall i m frame,
        mixers self !! i = Some m -> frames !! i = Some frame ->
        predictions !! ("__mdb_mixer_" +:+ mixer_name m)%string = Some frame) /\
    (forall k : string,
        (forall m, m ∈ mixers self ->
                   k <> ("__mdb_mixer_" +:+ mixer_name m)%string) ->
        predictions !! k = None).
Proof.
  intros Hall Hnd.
  destruct (run_all_returns (mixers self) frames ds Hall Hnd ∅)
    as (p & Hrun & Hin & Hout).
  exists p. unfold BestOf_call. rewrite Hrun, bind_ret_l.
  split; [reflexivity|]. split; [exact Hin|].
  intros k Hk. rewrite (Hout k Hk). apply lookup_empty.
Qed.

End EnsembleFurther.

(** *** Closed instances of the further ensemble properties *)

(** X12 at three mixers scoring [0.5], NaN and [0.9]. *)
Lemma BestOf_init_best_witness :
  exists score_list best rest m,
    Forall2 (fun m s => exists frame,
               predict m 0%nat = Ok frame /\
               s = adjusted_score (avg_score example_accuracy frame))
            [example_mixer "a" true [Fin (qfrac 1 2)];
             example_mixer "b" true [NaN];
             example_mixer "c" true [Fin (qfrac 9 10)]] score_list /\
    [2; 0; 1]%nat = best :: rest /\
    [example_mixer "a" true [Fin (qfrac 1 2)];
     example_mixer "b" true [NaN];
     example_mixer "c" true [Fin (qfrac 9 10)]] !! best = Some m /\
    false = supports_proba m /\
    (forall k, (k < 3)%nat ->
       np_le (score_at score_list k) (score_at score_list best) = true).
Proof.
  apply (BestOf_init_best nat (list pyfloat) example_accuracy
           [example_mixer "a" true [Fin (qfrac 1 2)];
            example_mixer "b" true [NaN];
            example_mixer "c" true [Fin (qfrac 9 10)]] 0%nat
           [INFO; INFO; WARNING; INFO; INFO]
           {| mixers := [example_mixer "a" true [Fin (qfrac 1 2)];
                         example_mixer "b" true [NaN];
                         example_mixer "c" true [Fin (qfrac 9 10)]];
              indexes_by_accuracy := [2; 0; 1]%nat;
              best_supports_proba := false |}).
  vm_compute. reflexivity.
Defined.

(** X13 at a mixer that predicts followed by an unstable mixer that
    raises on the data. *)
Lemma BestOf_init_propagates_witness :
  exists lg,
    BestOf_init example_accuracy
      ([example_mixer "a" true [Fin (qfrac 1 2)]]
       ++ failing_mixer "b" false [Fin (qfrac 9 10)] :: []) 1%nat
    = (lg, Raise (Exception "prediction failed")).
Proof.
  apply (BestOf_init_propagates nat (list pyfloat) example_accuracy
           [example_mixer "a" true [Fin (qfrac 1 2)]]
           (failing_mixer "b" false [Fin (qfrac 9 10)]) [] 1%nat
           (Exception "prediction failed")).
  - repeat constructor. eexists. reflexivity.
  - reflexivity.
Defined.

(** X14 at the same two mixers in all-mixers mode. *)
Lemma BestOf_call_all_mixers_raises_witness :
  BestOf_call {| mixers := [example_mixer "a" true [Fin (qfrac 1 2)];
                            failing_mixer "b" false [Fin (qfrac 9 10)]];
                 indexes_by_accuracy := [1; 0]%nat;
                 best_supports_proba := false |} 1%nat true
  = ([], Raise (Exception "prediction failed")).
Proof.
  apply (BestOf_call_all_mixers_raises nat (list pyfloat)
           {| mixers := [example_mixer "a" true [Fin (qfrac 1 2)];
                         failing_mixer "b" false [Fin (qfrac 9 10)]];
              indexes_by_accuracy := [1; 0]%nat;
              best_supports_proba := false |}
           [example_mixer "a" true [Fin (qfrac 1 2)]]
           (failing_mixer "b" false [Fin (qfrac 9 10)]) [] 1%nat
           (Exception "prediction failed")).
  - reflexivity.
  - repeat constructor. eexists. reflexivity.
  - reflexivity.
Defined.

(** X15 at two mixers named [a] and [b] that both predict. *)
Lemma BestOf_call_all_mixers_returns_witness :
  exists predictions : gmap string (list pyfloat),
    BestOf_call {| mixers := [example_mixer "a" true [Fin (qfrac 1 2)];
                              example_mixer "b" false [Fin (qfrac 9 10)]];
                   indexes_by_accuracy := [1; 0]%nat;
                   best_supports_proba := false |} 1%nat true
      = ([], Ok (AllFrames predictions)) /\
    (forall i m frame,
        [example_mixer "a" true [Fin (qfrac 1 2)];
         example_mixer "b" false [Fin (qfrac 9 10)]] !! i = Some m ->
        [[Fin (qfrac 1 2)]; [Fin (qfrac 9 10)]] !! i = Some frame ->
        predictions !! ("__mdb_mixer_" +:+ mixer_name m)%string = Some frame) /\
    (forall k : string,
        (forall m, m ∈ [example_mixer "a" true [Fin (qfrac 1 2)];
                        example_mixer "b" false [Fin (qfrac 9 10)]] ->
                   k <> ("__mdb_mixer_" +:+ mixer_name m)%string) ->
        predictions !! k = None).
Proof.
  apply (BestOf_call_all_mixers_returns nat (list pyfloat)
           {| mixers := [example_mixer "a" true [Fin (qfrac 1 2)];
                         example_mixer "b" false [Fin (qfrac 9 10)]];
              indexes_by_accuracy := [1; 0]%nat;
              best_supports_proba := false |}
           [[Fin (qfrac 1 2)]; [Fin (qfrac 9 10)]] 1%nat).
  - repeat constructor.
  - simpl. apply NoDup_cons. split; [|apply NoDup_singleton].
    intros H. apply list_elem_of_singleton in H. discriminate H.
Defined.

(** * Further properties of the analyzer *)





(** X17: with [m] rows or fewer there is no window: the residuals are
    empty and the scale factor is NaN; nothing is raised. *)
Theorem get_ts_residuals_short (target_data : list Qc) (m : nat) :
  (length target_data <= m)%nat ->
  get_ts_residuals target_data m = ([], NaN).
Proof.
  intros H. unfold get_ts_residuals.
  rewrite drop_ge by exact H.
  replace (zip_with window_residual target_data []) with (@nil Qc)
    by (destruct target_data; reflexivity).
  reflexivity.
Qed.


(** X17 at a two-row target and season length [2]. *)
Lemma get_ts_residuals_short_witness :
  get_ts_residuals [qz 1; qz 3] 2 = ([], NaN).
Proof. apply (get_ts_residuals_short [qz 1; qz 3] 2). simpl. lia. Defined.

(** The first loop leaves every entry but ['__default'] as it was. *)
Lemma default_loop_others (df : order_frame) order_cols :
  forall (deltas deltas' : delta_table) lg,
    default_loop df order_cols deltas = (lg, Ok deltas') ->
    forall g, g <> DefaultGroup -> deltas' !! g = deltas !! g.
Proof.
  induction order_cols as [|col rest IH]; intros deltas deltas' lg H g Hg.
  - injection H as _ <-. reflexivity.
  - cbn [default_loop] in H.
    apply bind_Ok_inv in H as (l1 & series & l2 & _ & H & ->).
    apply bind_Ok_inv in H as (l3 & d & l4 & _ & H & ->).
    apply bind_Ok_inv in H as (l5 & d1 & l6 & Hset & H & ->).
    rewrite (IH _ _ _ H g Hg). unfold set_delta in Hset.
    destruct (deltas !! DefaultGroup); [|discriminate].
    injection Hset as _ <-. apply lookup_insert_ne. congruence.
Qed.

(** X19: without group information and with ordering columns that can be
    differenced, the table [get_delta] returns holds the ['__default']
    entry and nothing else, and that entry has a delta for the ordering
    columns and for no other column. *)
Theorem get_delta_ungrouped (df : order_frame) combos order_cols :
  (forall col, col ∈ order_cols -> differencable df col) ->
  exists inner : gmap string Z,
    get_delta df [] combos order_cols
      = ([], Ok {[ DefaultGroup := inner ]}) /\
    (forall col, is_Some (inner !! col) <-> col ∈ order_cols).
Proof.
  intros Hwf. unfold get_delta.
  destruct (default_loop_spec df order_cols Hwf {[ DefaultGroup := ∅ ]} ∅)
    as (d1 & inner & Hrun & Hdef & Hin & Hout).
  { apply lookup_singleton_eq. }
  exists inner. rewrite Hrun, bind_ret_l. split.
  - unfold ret. do 2 f_equal. apply map_eq. intros g.
    destruct (decide (g = DefaultGroup)) as [->|Hg].
    + etrans; [exact Hdef|]. symmetry. apply lookup_singleton_eq.
    + etrans; [apply (default_loop_others df order_cols _ _ _ Hrun g Hg)|].
      etrans; [apply lookup_singleton_ne; congruence|].
      symmetry. apply lookup_singleton_ne. congruence.
  - intros col. split.
    + intros Hsome. destruct (decide (col ∈ order_cols)) as [Hc|Hc];
        [exact Hc|].
      rewrite (Hout col Hc), lookup_empty in Hsome.
      destruct Hsome as [? ?]. discriminate.
    + intros Hc. destruct (Hin col Hc) as (series & d & _ & _ & Hd). eauto.
Qed.

Lemma default_loop_first_failure (df : order_frame) pre col post e :
  (forall c, c ∈ pre -> differencable df c) ->
  (forall deltas : delta_table,
     is_Some (deltas !! DefaultGroup) ->
     default_loop df (col :: post) deltas = ([], Raise e)) ->
  forall deltas : delta_table,
    is_Some (deltas !! DefaultGroup) ->
    default_loop df (pre ++ col :: post) deltas = ([], Raise e).
Proof.
  intros Hpre Hfail. induction pre as [|c pre IH]; intros deltas Hd.
  - apply Hfail. exact Hd.
  - destruct (differencable_delta df c (Hpre c ltac:(left)))
      as (series & d & Hs & Hm).
    destruct Hd as [inner Hd].
    cbn [app default_loop]. rewrite Hs, bind_ret_l, Hm, bind_ret_l.
    rewrite (set_delta_present _ _ _ _ _ Hd), bind_ret_l.
    apply IH.
    + intros c' Hc'. apply Hpre. right. exact Hc'.
    + eexists. apply lookup_insert_eq.
Qed.

(** X20: [get_delta] raises at the first ordering column that cannot be
    differenced: [KeyError] when the column is not in the frame,
    [IndexError] when it has fewer than two rows (no cell being empty). *)
Theorem get_delta_first_failure (df : order_frame) gi combos pre col post :
  (forall c, c ∈ pre -> differencable df c) ->
  (df !! col = None ->
   get_delta df gi combos (pre ++ col :: post) = ([], Raise KeyError)) /\
  (forall cells,
     df !! col = Some cells -> (length cells < 2)%nat ->
     Forall (fun x => x <> []) cells ->
     get_delta df gi combos (pre ++ col :: post) = ([], Raise IndexError)).
Proof.
  intros Hpre. split.
  - intros Hnone. unfold get_delta.
    rewrite (default_loop_first_failure df pre col post KeyError Hpre).
    + reflexivity.
    + intros deltas _. cbn [default_loop]. unfold last_of_each.
      rewrite Hnone. reflexivity.
    + eexists. apply lookup_singleton_eq.
  - intros cells Hc Hlen Hne. unfold get_delta.
    rewrite (default_loop_first_failure df pre col post IndexError Hpre).
    + reflexivity.
    + intros deltas _. cbn [default_loop].
      destruct (last_of_each_returns df col cells Hc Hne) as (series & Hs & Hl).
      rewrite Hs, bind_ret_l.
      destruct series as [|a [|b r]]; [reflexivity|reflexivity|].
      simpl in Hl. lia.
    + eexists. apply lookup_singleton_eq.
Qed.

(** X20 at a frame with the column [t] only, asked for [t] and then [u]. *)
Lemma get_delta_first_failure_witness :
  (example_frame !! "u"%string = None ->
   get_delta example_frame [] [DefaultGroup] (["t"%string] ++ "u"%string :: [])
   = ([], Raise KeyError)) /\
  (forall cells,
     example_frame !! "u"%string = Some cells -> (length cells < 2)%nat ->
     Forall (fun x => x <> []) cells ->
     get_delta example_frame [] [DefaultGroup]
               (["t"%string] ++ "u"%string :: [])
     = ([], Raise IndexError)).
Proof.
  apply (get_delta_first_failure example_frame [] [DefaultGroup]
           ["t"%string] "u"%string []).
  intros c Hc. apply list_elem_of_singleton in Hc as ->.
  exists [[0]; [1]; [2]; [3]; [10]; [11]; [12]].
  split; [reflexivity|]. split; [simpl; lia|].
  repeat constructor; discriminate.
Defined.

(** X19 at the example frame. *)
Lemma get_delta_ungrouped_witness :
  exists inner : gmap string Z,
    get_delta example_frame [] [DefaultGroup; Group ["a"%string]] ["t"%string]
      = ([], Ok {[ DefaultGroup := inner ]}) /\
    (forall col, is_Some (inner !! col) <-> col ∈ ["t"%string]).
Proof.
  apply (get_delta_ungrouped example_frame
           [DefaultGroup; Group ["a"%string]] ["t"%string]).
  intros c Hc. apply list_elem_of_singleton in Hc as ->.
  exists [[0]; [1]; [2]; [3]; [10]; [11]; [12]].
  split; [reflexivity|]. split; [simpl; lia|].
  repeat constructor; discriminate.
Defined.





(** * Properties of the stored context *)









Lemma set_column_twice (frame : data_frame) :
  let stamp := fun f =>
    set_column (set_column f "__mdb_make_predictions" (CBool false))
               "__lw_preprocessed" (CBool true) in
  stamp (stamp frame) = stamp frame.
Proof.
  cbv zeta. destruct frame as [cols rows]. unfold set_column. cbn [df_columns df_rows].
  f_equal.
  - destruct (bool_decide ("__mdb_make_predictions"%string ∈ cols)) eqn:E1.
    + apply bool_decide_eq_true in E1.
      destruct (bool_decide ("__lw_preprocessed"%string ∈ cols)) eqn:E2.
      * rewrite (bool_decide_eq_true_2 _ E1), E2. reflexivity.
      * rewrite (bool_decide_eq_true_2
                   ("__mdb_make_predictions"%string
                    ∈ cols ++ ["__lw_preprocessed"%string]))
          by (apply elem_of_app; left; exact E1).
        rewrite (bool_decide_eq_true_2
                   ("__lw_preprocessed"%string
                    ∈ cols ++ ["__lw_preprocessed"%string]))
          by (apply elem_of_app; right; left).
        reflexivity.
    + set (c1 := cols ++ ["__mdb_make_predictions"%string]).
      assert (H1 : "__mdb_make_predictions"%string ∈ c1)
        by (apply elem_of_app; right; left).
      destruct (bool_decide ("__lw_preprocessed"%string ∈ c1)) eqn:E2.
      * rewrite (bool_decide_eq_true_2 _ H1), E2. reflexivity.
      * rewrite (bool_decide_eq_true_2
                   ("__mdb_make_predictions"%string
                    ∈ c1 ++ ["__lw_preprocessed"%string]))
          by (apply elem_of_app; left; exact H1).
        rewrite (bool_decide_eq_true_2
                   ("__lw_preprocessed"%string
                    ∈ c1 ++ ["__lw_preprocessed"%string]))
          by (apply elem_of_app; right; left).
        reflexivity.
  - rewrite !map_map. apply map_ext. intros row. apply map_eq. intros c.
    destruct (decide (c = "__lw_preprocessed"%string)) as [->|H2].
    + rewrite !lookup_insert_eq. reflexivity.
    + rewrite !(lookup_insert_ne _ "__lw_preprocessed"%string) by congruence.
      destruct (decide (c = "__mdb_make_predictions"%string)) as [->|H1].
      * rewrite !lookup_insert_eq. reflexivity.
      * rewrite !(lookup_insert_ne _ "__mdb_make_predictions"%string)
          by congruence.
        rewrite !(lookup_insert_ne _ "__lw_preprocessed"%string) by congruence.
        rewrite !(lookup_insert_ne _ "__mdb_make_predictions"%string)
          by congruence.
        reflexivity.
Qed.

(** X24: for a time-series target [get_context] returns the context with
    as many rows as before, in which every row has
    [__mdb_make_predictions] set to [False] and [__lw_preprocessed] set to
    [True] and is otherwise unchanged; calling it again changes
    nothing. *)
Theorem get_context_stamps dtype_dict target context :
  dtype_dict !! target = Some "tsarray"%string ->
  exists stamped,
    get_context dtype_dict target context = ([], Ok stamped) /\
    length (df_rows stamped) = length (df_rows context) /\
    (forall i row',
       df_rows stamped !! i = Some row' ->
       row' !! "__mdb_make_predictions"%string = Some (CBool false) /\
       row' !! "__lw_preprocessed"%string = Some (CBool true) /\
       exists row,
         df_rows context !! i = Some row /\
         forall c, c <> "__mdb_make_predictions"%string ->
                   c <> "__lw_preprocessed"%string ->
                   row' !! c = row !! c) /\
    get_context dtype_dict target stamped = ([], Ok stamped).
Proof.
  intros Ht. unfold get_context. rewrite Ht. simpl.
  eexists. split; [reflexivity|]. split; [|split].
  - cbn [set_column df_rows]. rewrite !length_map. reflexivity.
  - intros i row' Hi. cbn [set_column df_rows] in Hi.
    rewrite map_map in Hi.
    change (map ?f ?l) with (f <$> l) in Hi.
    rewrite list_lookup_fmap in Hi.
    destruct (df_rows context !! i) as [row|] eqn:E; [|discriminate].
    simpl in Hi. injection Hi as <-. split; [|split].
    + rewrite lookup_insert_ne by discriminate. apply lookup_insert_eq.
    + apply lookup_insert_eq.
    + exists row. split; [reflexivity|]. intros c H1 H2.
      rewrite !lookup_insert_ne by congruence. reflexivity.
  - unfold ret. do 2 f_equal. apply (set_column_twice context).
Qed.



(** X24 at the context stored for the example data. *)
Lemma get_context_stamps_witness :
  example_dtypes !! "sales"%string = Some "tsarray"%string /\
  exists stamped,
    get_context example_dtypes "sales" example_data = ([], Ok stamped) /\
    length (df_rows stamped) = length (df_rows example_data) /\
    (forall i row',
       df_rows stamped !! i = Some row' ->
       row' !! "__mdb_make_predictions"%string = Some (CBool false) /\
       row' !! "__lw_preprocessed"%string = Some (CBool true) /\
       exists row,
         df_rows example_data !! i = Some row /\
         forall c, c <> "__mdb_make_predictions"%string ->
                   c <> "__lw_preprocessed"%string ->
                   row' !! c = row !! c) /\
    get_context example_dtypes "sales" stamped = ([], Ok stamped).
Proof.
  split; [reflexivity|].
  apply (get_context_stamps example_dtypes "sales" example_data).
  reflexivity.
Defined.
